(** * go-hmacauth: the Python [requests] client signer, [clients/requests.py]

    A shallow embedding of [HMACAuth] and of the platform functions it calls
    ([str.format], [str.join], [str.lower], [sorted], [datetime.isoformat],
    [hashlib.sha256], [hmac.new], [base64.b64encode]) and of the header
    dictionary of [requests], followed by the properties of the
    canonical string-to-sign and of the [Authorization] header it produces.

    The module is Python 2 ([urlparse] is imported from its own module):
    a [str] is a byte string, modelled as [string], whose characters are the
    256 byte values. *)

From Stdlib Require Import ZArith Ascii Lia.
From stdpp Require Import base option list sorting gmap strings.

Local Open Scope Z_scope.

(** ** Exceptions and results *)

Inductive exn : Type :=
  | KeyError (key : string)
  | ValueError (msg : string)
  | AttributeError (name : string).

Inductive result (A : Type) : Type :=
  | Ok (a : A)
  | Raise (e : exn).
Arguments Ok {A} a.
Arguments Raise {A} e.

#[global] Instance result_ret : MRet result := λ A a, Ok a.
#[global] Instance result_bind : MBind result := λ A B f m,
  match m with
  | Ok a => f a
  | Raise e => Raise e
  end.
#[global] Instance result_fmap : FMap result := λ A B f m,
  match m with
  | Ok a => Ok (f a)
  | Raise e => Raise e
  end.

(** ** Python built-ins used by the signer *)

Module Py.

(** The line feed, Python's ["\n"]. *)
Definition LF_char : ascii := "010"%char.
Definition LF : string := String LF_char "".

(** [sep.join(l)] *)
Fixpoint join (sep : string) (l : list string) : string :=
  match l with
  | [] => ""
  | x :: l' =>
      match l' with
      | [] => x
      | _ :: _ => x +:+ sep +:+ join sep l'
      end
  end.

(** [sorted(l)] on a list of [str]: ascending in the byte-wise
    lexicographic order, by a stable merge sort. *)
Definition sorted (l : list string) : list string :=
  merge_sort String.le l.

(** [s.lower()] on a [str]: the letters A to Z become a to z, every other
    byte stays. *)
Definition lower_char (c : ascii) : ascii :=
  let n := N_of_ascii c in
  if ((65 <=? n) && (n <=? 90))%N then ascii_of_N (n + 32) else c.

Fixpoint lower (s : string) : string :=
  match s with
  | "" => ""
  | String c s' => String (lower_char c) (lower s')
  end.

(** [[f(x) for x in l]] where [f] may raise: the first exception aborts
    the comprehension. *)
Fixpoint comprehension {A B : Type} (f : A → result B) (l : list A)
  : result (list B) :=
  match l with
  | [] => Ok []
  | x :: l' => y ← f x; ys ← comprehension f l'; Ok (y :: ys)
  end.

(** Keyword arguments of a call, in the order written. *)
Definition kwargs : Type := list (string * string).

Fixpoint kwarg (name : string) (kw : kwargs) : result string :=
  match kw with
  | [] => Raise (KeyError name)
  | (k, v) :: kw' => if decide (k = name) then Ok v else kwarg name kw'
  end.

(** [template.format(name=value, ...)] for templates whose replacement
    fields are plain keyword names, as both templates of the signer are.  Literal
    text is copied, [{{] and [}}] stand for one brace, [{name}] is replaced
    by the argument [name] (a [str] is inserted as it is), a name that is
    not among the arguments raises [KeyError], an unbalanced brace raises
    [ValueError].  [field] is [Some n] while the scanner is inside a
    replacement field whose name so far is [n]. *)
Fixpoint format_go (kw : kwargs) (field : option string) (t : string)
  : result string :=
  match field, t with
  | None, "" => Ok ""
  | None, String c t' =>
      if decide (c = "{"%char) then
        match t' with
        | String "{"%char t'' => String "{"%char <$> format_go kw None t''
        | _ => format_go kw (Some "") t'
        end
      else if decide (c = "}"%char) then
        match t' with
        | String "}"%char t'' => String "}"%char <$> format_go kw None t''
        | _ => Raise (ValueError "Single '}' encountered in format string")
        end
      else String c <$> format_go kw None t'
  | Some _, "" => Raise (ValueError "unmatched '{' in format")
  | Some name, String c t' =>
      if decide (c = "}"%char) then
        v ← kwarg name kw; rest ← format_go kw None t'; Ok (v +:+ rest)
      else format_go kw (Some (name +:+ String c "")) t'
  end.

Definition format (template : string) (kw : kwargs) : result string :=
  format_go kw None template.

End Py.

(** ** [datetime]: the naive UTC reading of the clock and [isoformat] *)

Module Datetime.

Record datetime : Type := {
  year : N; month : N; day : N;
  hour : N; minute : N; second : N; microsecond : N }.

Definition days_in_month (y m : N) : N :=
  let leap :=
    ((y mod 4 =? 0) && (negb (y mod 100 =? 0) || (y mod 400 =? 0)))%N in
  if (m =? 2)%N then (if leap then 29 else 28)%N
  else if ((m =? 4) || (m =? 6) || (m =? 9) || (m =? 11))%N then 30%N
  else 31%N.

(** The values a [datetime] object can hold. *)
Definition valid (d : datetime) : Prop :=
  (1 ≤ year d ≤ 9999 ∧ 1 ≤ month d ≤ 12
   ∧ 1 ≤ day d ≤ days_in_month (year d) (month d)
   ∧ hour d < 24 ∧ minute d < 60 ∧ second d < 60
   ∧ microsecond d < 1000000)%N.

Definition digit_char (d : N) : ascii := ascii_of_N (48 + d).

Fixpoint decimal_go (fuel : nat) (n : N) (acc : string) : string :=
  match fuel with
  | O => acc
  | S fuel' =>
      let acc' := String (digit_char (n mod 10)) acc in
      if (n / 10 =? 0)%N then acc' else decimal_go fuel' (n / 10) acc'
  end.

(** [%d]: the decimal digits of [n]; a number has no more decimal digits
    than bits. *)
Definition decimal (n : N) : string :=
  decimal_go (S (N.to_nat (N.size n))) n "".

Fixpoint zeros (k : nat) : string :=
  match k with
  | O => ""
  | S k' => String "0"%char (zeros k')
  end.

(** [%0wd]: at least [w] digits, zeros on the left. *)
Definition pad0 (w : nat) (n : N) : string :=
  let s := decimal n in zeros (w - String.length s) +:+ s.

(** [d.isoformat()] of a naive datetime: [YYYY-MM-DDTHH:MM:SS], and
    [.ffffff] after it when the microsecond is not 0. *)
Definition isoformat_seconds (d : datetime) : string :=
  pad0 4 (year d) +:+ "-" +:+ pad0 2 (month d) +:+ "-" +:+ pad0 2 (day d)
  +:+ "T" +:+ pad0 2 (hour d) +:+ ":" +:+ pad0 2 (minute d)
  +:+ ":" +:+ pad0 2 (second d).

Definition isoformat (d : datetime) : string :=
  isoformat_seconds d
  +:+ (if decide (microsecond d = 0%N) then ""
       else "." +:+ pad0 6 (microsecond d)).

End Datetime.
Export Datetime (datetime).

(** ** Byte strings as lists of byte values *)

Module Bytes.

(** A byte string as the list of its byte values, each in [0, 256). *)
Definition of_string (s : string) : list Z :=
  (λ c, Z.of_N (N_of_ascii c)) <$> String.list_ascii_of_string s.

End Bytes.

(** ** [hashlib.sha256]: SHA-256 on 32-bit words held in [Z] *)

Module SHA256.

Definition wrap (x : Z) : Z := x mod 2 ^ 32.
Definition add (x y : Z) : Z := wrap (x + y).
Definition rotr (n x : Z) : Z := Z.lor (Z.shiftr x n) (wrap (Z.shiftl x (32 - n))).
Definition shr (n x : Z) : Z := Z.shiftr x n.
Definition not32 (x : Z) : Z := Z.lxor x 0xFFFFFFFF.
Definition Ch (x y z : Z) : Z := Z.lxor (Z.land x y) (Z.land (not32 x) z).
Definition Maj (x y z : Z) : Z :=
  Z.lxor (Z.lxor (Z.land x y) (Z.land x z)) (Z.land y z).
Definition Sigma0 (x : Z) : Z := Z.lxor (Z.lxor (rotr 2 x) (rotr 13 x)) (rotr 22 x).
Definition Sigma1 (x : Z) : Z := Z.lxor (Z.lxor (rotr 6 x) (rotr 11 x)) (rotr 25 x).
Definition sigma0 (x : Z) : Z := Z.lxor (Z.lxor (rotr 7 x) (rotr 18 x)) (shr 3 x).
Definition sigma1 (x : Z) : Z := Z.lxor (Z.lxor (rotr 17 x) (rotr 19 x)) (shr 10 x).

Definition K : list Z :=
  [ 0x428A2F98; 0x71374491; 0xB5C0FBCF; 0xE9B5DBA5;
    0x3956C25B; 0x59F111F1; 0x923F82A4; 0xAB1C5ED5;
    0xD807AA98; 0x12835B01; 0x243185BE; 0x550C7DC3;
    0x72BE5D74; 0x80DEB1FE; 0x9BDC06A7; 0xC19BF174;
    0xE49B69C1; 0xEFBE4786; 0x0FC19DC6; 0x240CA1CC;
    0x2DE92C6F; 0x4A7484AA; 0x5CB0A9DC; 0x76F988DA;
    0x983E5152; 0xA831C66D; 0xB00327C8; 0xBF597FC7;
    0xC6E00BF3; 0xD5A79147; 0x06CA6351; 0x14292967;
    0x27B70A85; 0x2E1B2138; 0x4D2C6DFC; 0x53380D13;
    0x650A7354; 0x766A0ABB; 0x81C2C92E; 0x92722C85;
    0xA2BFE8A1; 0xA81A664B; 0xC24B8B70; 0xC76C51A3;
    0xD192E819; 0xD6990624; 0xF40E3585; 0x106AA070;
    0x19A4C116; 0x1E376C08; 0x2748774C; 0x34B0BCB5;
    0x391C0CB3; 0x4ED8AA4A; 0x5B9CCA4F; 0x682E6FF3;
    0x748F82EE; 0x78A5636F; 0x84C87814; 0x8CC70208;
    0x90BEFFFA; 0xA4506CEB; 0xBEF9A3F7; 0xC67178F2 ].

(** The eight working variables, also the chaining value. *)
Record state : Type := State {
  sa : Z; sb : Z; sc : Z; sd : Z; se : Z; sf : Z; sg : Z; sh : Z }.

Definition initial : state :=
  State 0x6A09E667 0xBB67AE85 0x3C6EF372 0xA54FF53A
        0x510E527F 0x9B05688C 0x1F83D9AB 0x5BE0CD19.

(** Big-endian word of four bytes, and back. *)
Definition word_of (b0 b1 b2 b3 : Z) : Z :=
  Z.lor (Z.lor (Z.shiftl b0 24) (Z.shiftl b1 16)) (Z.lor (Z.shiftl b2 8) b3).
Definition bytes_of_word (x : Z) : list Z :=
  [ Z.land (Z.shiftr x 24) 255; Z.land (Z.shiftr x 16) 255;
    Z.land (Z.shiftr x 8) 255; Z.land x 255 ].

Fixpoint words (l : list Z) : list Z :=
  match l with
  | b0 :: b1 :: b2 :: b3 :: l' => word_of b0 b1 b2 b3 :: words l'
  | _ => []
  end.

(** One round: [win] holds the sixteen most recent schedule words, the
    oldest first; its head is the word of this round. *)
Definition round (st : state * list Z) (k : Z) : state * list Z :=
  let '(State a b c d e f g h, win) := st in
  let w i := nth i win 0 in
  let t1 := add (add (add (add h (Sigma1 e)) (Ch e f g)) k) (w 0%nat) in
  let t2 := add (Sigma0 a) (Maj a b c) in
  let next := add (add (add (sigma1 (w 14%nat)) (w 9%nat)) (sigma0 (w 1%nat))) (w 0%nat) in
  (State (add t1 t2) a b c (add d t1) e f g, tail win ++ [next]).

Definition compress (h : state) (block : list Z) : state :=
  let '(State a b c d e f g h', _) := fold_left round K (h, words block) in
  State (add (sa h) a) (add (sb h) b) (add (sc h) c) (add (sd h) d)
        (add (se h) e) (add (sf h) f) (add (sg h) g) (add (sh h) h').

(** Padding: a 1 bit, zeros up to 56 mod 64 bytes, the bit length on
    eight bytes. *)
Definition pad (msg : list Z) : list Z :=
  let len := Z.of_nat (length msg) in
  let bits := 8 * len in
  msg ++ [0x80] ++ replicate (Z.to_nat ((55 - len) mod 64)) 0
      ++ bytes_of_word (Z.shiftr bits 32) ++ bytes_of_word (wrap bits).

Fixpoint blocks (fuel : nat) (l : list Z) : list (list Z) :=
  match fuel, l with
  | S fuel', _ :: _ => take 64 l :: blocks fuel' (drop 64 l)
  | _, _ => []
  end.

Definition digest_of (h : state) : list Z :=
  bytes_of_word (sa h) ++ bytes_of_word (sb h) ++ bytes_of_word (sc h)
  ++ bytes_of_word (sd h) ++ bytes_of_word (se h) ++ bytes_of_word (sf h)
  ++ bytes_of_word (sg h) ++ bytes_of_word (sh h).

Definition digest (msg : list Z) : list Z :=
  let p := pad msg in
  digest_of (fold_left compress (blocks (length p) p) initial).

End SHA256.

(** ** [hmac]: the keyed hash over SHA-256 *)

Module HMAC.

Definition block_size : nat := 64.
Definition xor_with (c : Z) (l : list Z) : list Z := (λ b, Z.lxor b c) <$> l.
(** [hmac.new(key, msg, hashlib.sha256).digest()] *)
Definition sha256_digest (key msg : list Z) : list Z :=
  let key := if decide (block_size < length key)%nat then SHA256.digest key else key in
  let key := key ++ replicate (block_size - length key) 0 in
  SHA256.digest (xor_with 0x5C key ++ SHA256.digest (xor_with 0x36 key ++ msg)).

End HMAC.

(** ** [base64]: the standard alphabet, with padding, no line breaks *)

Module Base64.

Definition alphabet : list ascii :=
  String.list_ascii_of_string
    "ABCDEFGHIJKLMNOPQRSTUVWXYZabcdefghijklmnopqrstuvwxyz0123456789+/".
Definition pad_char : ascii := "="%char.
Definition char_of (i : Z) : ascii := nth (Z.to_nat i) alphabet pad_char.
(** [base64.b64encode(s)] *)
Fixpoint b64encode (l : list Z) : string :=
  match l with
  | [] => ""
  | [a] =>
      String (char_of (Z.shiftr a 2))
        (String (char_of (Z.land (Z.shiftl a 4) 63))
           (String pad_char (String pad_char "")))
  | [a; b] =>
      String (char_of (Z.shiftr a 2))
        (String (char_of (Z.land (Z.lor (Z.shiftl a 4) (Z.shiftr b 4)) 63))
           (String (char_of (Z.land (Z.shiftl b 2) 63)) (String pad_char "")))
  | a :: b :: c :: l' =>
      String (char_of (Z.shiftr a 2))
        (String (char_of (Z.land (Z.lor (Z.shiftl a 4) (Z.shiftr b 4)) 63))
           (String (char_of (Z.land (Z.lor (Z.shiftl b 2) (Z.shiftr c 6)) 63))
              (String (char_of (Z.land c 63)) (b64encode l'))))
  end.

End Base64.

(** ** The request object and the world the signer runs in *)

Module Requests.

(** [requests.structures.CaseInsensitiveDict], the type of the headers of
    a request.  An entry is kept under its lower-cased key, together with
    the key as it was last written, so that names are matched whatever
    their case. *)
Record CaseInsensitiveDict : Type := {
  _store : gmap string (string * string) }.

(** [d[key]]: raises [KeyError] when no entry has this key in any case. *)
Definition getitem (d : CaseInsensitiveDict) (key : string) : result string :=
  match _store d !! Py.lower key with
  | Some (_, value) => Ok value
  | None => Raise (KeyError (Py.lower key))
  end.

(** [key in d]: whether [d[key]] returns. *)
Definition contains (d : CaseInsensitiveDict) (key : string) : bool :=
  match getitem d key with
  | Ok _ => true
  | Raise _ => false
  end.

(** [d[key] = value]: replaces the entry of this key in any case. *)
Definition setitem (d : CaseInsensitiveDict) (key value : string)
  : CaseInsensitiveDict :=
  {| _store := <[Py.lower key := (key, value)]> (_store d) |}.

(** [list(d)]: the keys as they were written. *)
Definition keys (d : CaseInsensitiveDict) : list string :=
  (λ e, fst (snd e)) <$> map_to_list (_store d).

(** [d.get(key)] is written [d !! key], [d[key] = value] as a function
    [<[key := value]> d], and a dictionary with given entries, the leftmost
    written last, [{[ key := value; ... ]}]. *)
#[global] Instance dict_lookup : Lookup string string CaseInsensitiveDict :=
  λ key d, snd <$> _store d !! Py.lower key.
#[global] Instance dict_insert : Insert string string CaseInsensitiveDict :=
  λ key value d, setitem d key value.
#[global] Instance dict_empty : Empty CaseInsensitiveDict :=
  {| _store := ∅ |}.
#[global] Instance dict_singleton
  : SingletonM string string CaseInsensitiveDict :=
  λ key value, setitem ∅ key value.

(** What the signer reads and writes of a prepared request.  [path_url] is
    the value of the property of that name (path and query as sent on the
    wire). *)
Record Request : Type := {
  method : string;
  url : string;
  path_url : string;
  headers : CaseInsensitiveDict;
  body : string }.

Definition with_headers (q : Request) (h : CaseInsensitiveDict) : Request :=
  {| method := method q; url := url q; path_url := path_url q;
     headers := h; body := body q |}.

End Requests.
Export Requests (Request, CaseInsensitiveDict).

(** The six components of [urlparse(url)]. *)
Record ParseResult : Type := {
  scheme : string; netloc : string; path : string;
  params : string; query : string; fragment : string }.

(** Objects are shared and mutated in place: a request is held by
    reference, the heap maps references to the objects' current values.
    The clock is the reading the next [datetime.utcnow()] returns; the
    readings after it are [future], one for each later call of
    [datetime.utcnow()]. *)
Definition ref : Type := positive.

Record World : Type := {
  clock : datetime;
  future : list datetime;
  heap : gmap ref Request }.

(** The world once the clock has been read: the clock shows the next
    reading (the same again when none is given). *)
Definition elapse (σ : World) : World :=
  {| clock := hd (clock σ) (future σ);
     future := tl (future σ);
     heap := heap σ |}.

(** Computations that read and write the world and may raise. *)
Definition M (A : Type) : Type := World → result (A * World).

#[global] Instance M_ret : MRet M := λ A a σ, Ok (a, σ).
#[global] Instance M_bind : MBind M := λ A B f m σ,
  match m σ with
  | Ok (a, σ') => f a σ'
  | Raise e => Raise e
  end.

Definition lift {A : Type} (x : result A) : M A := λ σ,
  match x with
  | Ok a => Ok (a, σ)
  | Raise e => Raise e
  end.

(** [datetime.utcnow()]: the reading of the clock, which then moves on. *)
Definition utcnow : M datetime := λ σ, Ok (clock σ, elapse σ).

(** [r.name]: reading an attribute of the object behind [r]. *)
Definition attr {A : Type} (r : ref) (name : string) (field : Request → A)
  : M A := λ σ,
  match heap σ !! r with
  | Some q => Ok (field q, σ)
  | None => Raise (AttributeError name)
  end.

(** [r.headers[k] = v]: the dictionary of the object behind [r] is updated
    in place. *)
Definition setitem_headers (r : ref) (k v : string) : M unit := λ σ,
  match heap σ !! r with
  | Some q =>
      let q' :=
        Requests.with_headers q (Requests.setitem (Requests.headers q) k v) in
      Ok ((), {| clock := clock σ; future := future σ;
                 heap := <[r := q']> (heap σ) |})
  | None => Raise (AttributeError "headers")
  end.

(** ** The signer *)

Module HMACAuth.

Definition _STRING_TO_SIGN : string :=
  Eval cbv in
    "{method}" +:+ Py.LF +:+ "{host}" +:+ Py.LF +:+ "{uri}" +:+ Py.LF
    +:+ "{timestamp}" +:+ Py.LF.

Definition _AUTH_HEADER : string :=
  "APIKey={api_key},Signature={sig},Timestamp={timestamp}".

Record t : Type := {
  api_key : string;
  secret_key : string;
  required_headers : option (list string) }.

(** [HMACAuth(api_key, secret_key, required_headers=None)] *)
Definition __init__ (api_key secret_key : string)
    (required_headers : option (list string)) : t :=
  {| api_key := api_key;
     secret_key := secret_key;
     required_headers :=
       match required_headers with
       | Some l => Some (Py.sorted l)
       | None => None
       end |}.

(** Lines 33 to 44 of [__call__]: the base string from the template, then,
    when [self.required_headers] is true (neither [None] nor empty), the
    values of the listed headers that the request has, one per line. *)
Definition str_to_sign (self : t) (method host uri timestamp : string)
    (headers : CaseInsensitiveDict) : result string :=
  base ← Py.format _STRING_TO_SIGN
           [("method", method); ("host", host); ("uri", uri);
            ("timestamp", timestamp)];
  match required_headers self with
  | Some ((_ :: _) as names) =>
      values ← Py.comprehension (Requests.getitem headers)
                 (List.filter (Requests.contains headers) names);
      Ok (base +:+ Py.join Py.LF values)
  | _ => Ok base
  end.

(** Lines 46 to 53: the keyed hash of the string, its base64 text, and the
    header value from the template. *)
Definition raw_sig (self : t) (str_to_sign : string) : list Z :=
  HMAC.sha256_digest (Bytes.of_string (secret_key self))
    (Bytes.of_string str_to_sign).

Definition encoded_sig (self : t) (str_to_sign : string) : string :=
  Base64.b64encode (raw_sig self str_to_sign).

Definition auth_header (self : t) (str_to_sign timestamp : string)
  : result string :=
  Py.format _AUTH_HEADER
    [("api_key", api_key self); ("sig", encoded_sig self str_to_sign);
     ("timestamp", timestamp)].

(** The timestamp of a call made when the clock reads [now]. *)
Definition timestamp_at (now : datetime) : string :=
  Datetime.isoformat now +:+ "-00:00".

Section call.

(** [urlparse] is the platform's URL parser; it raises [ValueError] on a
    malformed network location. *)
Variable urlparse : string → result ParseResult.

(** [self(r)], lines 29 to 55.  The attributes of [r] are read from the
    object behind the reference; the header is written into that same
    object, and the reference is returned. *)
Definition __call__ (self : t) (r : ref) : M ref :=
  url ← attr r "url" Requests.url;
  parsed_url ← lift (urlparse url);
  now ← utcnow;
  let timestamp := timestamp_at now in
  method ← attr r "method" Requests.method;
  path_url ← attr r "path_url" Requests.path_url;
  headers ← attr r "headers" Requests.headers;
  s ← lift (str_to_sign self method (netloc parsed_url) path_url timestamp
              headers);
  value ← lift (auth_header self s timestamp);
  _ ← setitem_headers r "Authorization" value;
  mret r.

End call.

End HMACAuth.

Export HMACAuth.

(** ** Vocabulary of the properties *)

Abbreviation chars := String.list_ascii_of_string.

(** The four lines every string-to-sign starts with. *)
Definition base_string (method host uri timestamp : string) : string :=
  method +:+ Py.LF +:+ host +:+ Py.LF +:+ uri +:+ Py.LF +:+ timestamp +:+ Py.LF.

(** The values [d] has for the names of [names], in the order of [names]. *)
Definition selected (d : CaseInsensitiveDict) (names : list string)
  : list string := omap (λ h, d !! h) names.

(** What follows the four lines: the selected values, one per line, when
    the signer has a non-empty list of names, and nothing otherwise. *)
Definition segment (self : HMACAuth.t) (d : CaseInsensitiveDict) : string :=
  match required_headers self with
  | Some ((_ :: _) as names) => Py.join Py.LF (selected d names)
  | _ => ""
  end.

Definition auth_value (self : HMACAuth.t) (s timestamp : string) : string :=
  "APIKey=" +:+ api_key self +:+ ",Signature=" +:+ encoded_sig self s
  +:+ ",Timestamp=" +:+ timestamp.

(** The header [name] of the request behind [r]. *)
Definition header_of (σ : World) (r : ref) (name : string) : option string :=
  q ← heap σ !! r; Requests.headers q !! name.

Definition signed_string (self : HMACAuth.t) (q : Request) (p : ParseResult)
    (now : datetime) : string :=
  base_string (Requests.method q) (netloc p) (Requests.path_url q)
    (timestamp_at now)
  +:+ segment self (Requests.headers q).

(** The world after [self] has signed the request [q] behind [r]. *)
Definition signed_world (self : HMACAuth.t) (r : ref) (q : Request)
    (p : ParseResult) (σ : World) : World :=
  {| clock := clock (elapse σ);
     future := future (elapse σ);
     heap :=
       <[r := Requests.with_headers q
                (<["Authorization" :=
                     auth_value self (signed_string self q p (clock σ))
                       (timestamp_at (clock σ))]> (Requests.headers q))]>
         (heap σ) |}.

(** Values one per line, as the spec words it: a line feed between two
    values and none after the last. *)
Definition one_per_line (values : list string) : string :=
  match values with
  | [] => ""
  | v :: rest => v +:+ foldr (λ w acc, Py.LF +:+ w +:+ acc) "" rest
  end.

Definition all_chars (P : ascii → Prop) (s : string) : Prop :=
  Forall P (chars s).

Definition no_newline (s : string) : Prop :=
  all_chars (λ c, c ≠ Py.LF_char) s.

Definition is_digit (c : ascii) : Prop := (48 ≤ N_of_ascii c ≤ 57)%N.

(** The number a string of digits denotes. *)
Definition number (s : string) : N :=
  fold_left (λ a c, (10 * a + (N_of_ascii c - 48))%N) (chars s) 0%N.

(** [s] is [n] written with exactly [w] decimal digits. *)
Definition renders (w : nat) (n : N) (s : string) : Prop :=
  String.length s = w ∧ all_chars is_digit s ∧ number s = n.

(** A timestamp that shows at least the microseconds: a point, six or more
    digits, and the suffix. *)
Definition microsecond_precision (timestamp : string) : Prop :=
  ∃ seconds digits : string,
    timestamp = seconds +:+ "." +:+ digits +:+ "-00:00"
    ∧ (6 ≤ String.length digits)%nat
    ∧ all_chars is_digit digits.

(** ** Sample data *)

Module Sample.

Fixpoint after_slashes (s : string) : string :=
  match s with
  | String "/"%char (String "/"%char s') => s'
  | String _ s' => after_slashes s'
  | "" => ""
  end.

Fixpoint split_at_path (s : string) : string * string :=
  match s with
  | "" => ("", "")
  | String c s' =>
      if decide (c = "/"%char) then ("", s)
      else let '(a, b) := split_at_path s' in (String c a, b)
  end.

(** A stand-in for [urlparse] on URLs of the shape [scheme://host/rest]:
    the network location is what lies between [//] and the next [/]. *)
Definition urlparse (u : string) : result ParseResult :=
  let '(host, rest) := split_at_path (after_slashes u) in
  Ok {| scheme := "https"; netloc := host; path := rest;
        params := ""; query := ""; fragment := "" |}.

Definition midnight : datetime :=
  {| Datetime.year := 2024; Datetime.month := 1; Datetime.day := 1;
     Datetime.hour := 0; Datetime.minute := 0; Datetime.second := 0;
     Datetime.microsecond := 0 |}.

Definition afternoon : datetime :=
  {| Datetime.year := 2024; Datetime.month := 1; Datetime.day := 1;
     Datetime.hour := 13; Datetime.minute := 5; Datetime.second := 59;
     Datetime.microsecond := 1234 |}.

Definition a_second_later : datetime :=
  {| Datetime.year := 2024; Datetime.month := 1; Datetime.day := 1;
     Datetime.hour := 13; Datetime.minute := 6; Datetime.second := 0;
     Datetime.microsecond := 2468 |}.

Definition things : Request :=
  {| Requests.method := "GET";
     Requests.url := "https://example.com/v1/things?x=1";
     Requests.path_url := "/v1/things?x=1";
     Requests.headers := {[ "X-Foo" := "v1"; "X-Bar" := "v2" ]};
     Requests.body := "" |}.

Definition things_again : Request :=
  {| Requests.method := "GET";
     Requests.url := "https://example.com/v1/things?x=1";
     Requests.path_url := "/v1/things?x=1";
     Requests.headers := {[ "Authorization" := "stale"; "Accept" := "text/plain" ]};
     Requests.body := "payload" |}.

(** A request that already carries the header, written in lower case. *)
Definition things_stale : Request :=
  {| Requests.method := "POST";
     Requests.url := "https://example.com/v1/things?x=1";
     Requests.path_url := "/v1/things?x=1";
     Requests.headers :=
       {[ "authorization" := "stale"; "Accept" := "text/plain" ]};
     Requests.body := "payload" |}.

Definition world : World :=
  {| clock := afternoon; future := [a_second_later];
     heap := {[ 1%positive := things ]} |}.

Definition stale_world : World :=
  {| clock := afternoon; future := [a_second_later];
     heap := {[ 1%positive := things; 7%positive := things_stale ]} |}.

Definition other_world : World :=
  {| clock := afternoon; future := [];
     heap := {[ 1%positive := things; 7%positive := things_again ]} |}.

Definition midnight_world : World :=
  {| clock := midnight; future := [afternoon];
     heap := {[ 1%positive := things ]} |}.

Definition parsed : ParseResult :=
  {| scheme := "https"; netloc := "example.com"; path := "/v1/things?x=1";
     params := ""; query := ""; fragment := "" |}.

(** Lower-case hexadecimal text of a byte string, to compare digests with
    published test vectors. *)
Definition hex (l : list Z) : string :=
  let digit i :=
    nth (Z.to_nat i) (chars "0123456789abcdef") "?"%char in
  String.string_of_list_ascii
    (flat_map (λ b, [digit (b / 16); digit (b mod 16)]) l).

End Sample.

(** ** Vocabulary of the further properties *)

(** [s] does not contain the character [c]. *)
Definition lacks (c : ascii) (s : string) : Prop :=
  all_chars (λ x, x ≠ c) s.

(** The names a signer selects headers by: its stored list, or none. *)
Definition listed (self : HMACAuth.t) : list string :=
  match required_headers self with
  | Some names => names
  | None => []
  end.

(** One call after another, the first result dropped. *)
Definition and_then {A B : Type} (m : M A) (k : M B) : M B := _ ← m; k.

(** The values a byte can take. *)
Definition is_byte (b : Z) : Prop := 0 ≤ b < 256.

(** The three bytes that four base64 digits, given by their values, stand
    for. *)
Definition first_byte (i0 i1 : Z) : Z := Z.lor (Z.shiftl i0 2) (Z.shiftr i1 4).
Definition second_byte (i1 i2 : Z) : Z :=
  Z.lor (Z.shiftl (Z.land i1 15) 4) (Z.shiftr i2 2).
Definition third_byte (i2 i3 : Z) : Z := Z.lor (Z.shiftl (Z.land i2 3) 6) i3.

(** The NUL byte as a one-character string. *)
Definition NUL : string := String "000"%char "".

Module Sample2.

Definition upload : Request :=
  {| Requests.method := "PUT";
     Requests.url := "https://files.example.com/u/42";
     Requests.path_url := "/u/42";
     Requests.headers := {[ "Content-Type" := "text/plain" ]};
     Requests.body := "hello" |}.

Definition upload_parsed : ParseResult :=
  {| scheme := "https"; netloc := "files.example.com"; path := "/u/42";
     params := ""; query := ""; fragment := "" |}.

Definition two_requests : World :=
  {| clock := Sample.afternoon; future := [Sample.a_second_later];
     heap := {[ 1%positive := Sample.things; 2%positive := upload ]} |}.

Definition things_other_bar : Request :=
  {| Requests.method := "GET";
     Requests.url := "https://example.com/v1/things?x=1";
     Requests.path_url := "/v1/things?x=1";
     Requests.headers :=
       {[ "X-Foo" := "v1"; "X-Bar" := "changed"; "Cookie" := "c=1" ]};
     Requests.body := "" |}.

Definition two_headers : World :=
  {| clock := Sample.afternoon; future := [];
     heap := {[ 1%positive := Sample.things;
                2%positive := things_other_bar ]} |}.

End Sample2.

(** * Lemmas *)

(** ** Strings *)

Import Datetime.

Lemma chars_app (a b : string) : chars (a +:+ b) = chars a ++ chars b.
Proof. induction a as [|c a IH]; simpl; [done | by rewrite <- IH]. Qed.

Lemma chars_inj (a b : string) : chars a = chars b → a = b.
Proof.
  intros E. rewrite <- (String.string_of_list_ascii_of_string a),
    <- (String.string_of_list_ascii_of_string b). by rewrite E.
Qed.

Lemma string_app_assoc (a b c : string) : (a +:+ b) +:+ c = a +:+ b +:+ c.
Proof. apply chars_inj. rewrite !chars_app. by rewrite app_assoc. Qed.

Lemma string_app_nil_r (a : string) : a +:+ "" = a.
Proof. apply chars_inj. rewrite chars_app. apply app_nil_r. Qed.

Lemma string_app_inv_tail (a b t : string) : a +:+ t = b +:+ t → a = b.
Proof.
  intros E. apply chars_inj. apply (f_equal chars) in E.
  rewrite !chars_app in E. by apply app_inv_tail in E.
Qed.

Lemma string_app_length (a b : string) :
  String.length (a +:+ b) = (String.length a + String.length b)%nat.
Proof. induction a as [|c a IH]; simpl; [done | by rewrite <- IH]. Qed.

Lemma format_string_to_sign (method host uri timestamp : string) :
  Py.format _STRING_TO_SIGN
    [("method", method); ("host", host); ("uri", uri); ("timestamp", timestamp)]
  = Ok (base_string method host uri timestamp).
Proof. reflexivity. Qed.

Lemma format_auth_header (k sg ts : string) :
  Py.format _AUTH_HEADER [("api_key", k); ("sig", sg); ("timestamp", ts)]
  = Ok ("APIKey=" +:+ k +:+ ",Signature=" +:+ sg +:+ ",Timestamp=" +:+ ts).
Proof.
  transitivity
    (Ok ("APIKey=" +:+ k +:+ ",Signature=" +:+ sg +:+ ",Timestamp="
         +:+ ts +:+ "") : result string); [reflexivity|].
  by rewrite string_app_nil_r.
Qed.

(** ** The header dictionary *)

Lemma dict_lookup_eq (d : CaseInsensitiveDict) (k : string) :
  d !! k = snd <$> Requests._store d !! Py.lower k.
Proof. reflexivity. Qed.

Lemma dict_lookup_case (d : CaseInsensitiveDict) (k k' : string) :
  Py.lower k = Py.lower k' → d !! k = d !! k'.
Proof. intros E. by rewrite !dict_lookup_eq, E. Qed.

Lemma dict_lookup_insert (d : CaseInsensitiveDict) (k k' v : string) :
  Py.lower k = Py.lower k' → <[k := v]> d !! k' = Some v.
Proof.
  intros E. rewrite dict_lookup_eq. unfold insert, Requests.dict_insert.
  cbn [Requests.setitem Requests._store]. by rewrite E, lookup_insert_eq.
Qed.

Lemma dict_lookup_insert_ne (d : CaseInsensitiveDict) (k k' v : string) :
  Py.lower k ≠ Py.lower k' → <[k := v]> d !! k' = d !! k'.
Proof.
  intros E. rewrite !dict_lookup_eq. unfold insert, Requests.dict_insert.
  cbn [Requests.setitem Requests._store]. by rewrite lookup_insert_ne.
Qed.

Lemma dict_insert_insert (d : CaseInsensitiveDict) (k k' v v' : string) :
  Py.lower k = Py.lower k' → <[k := v]> (<[k' := v']> d) = <[k := v]> d.
Proof.
  intros E. unfold insert, Requests.dict_insert, Requests.setitem.
  cbn [Requests._store]. by rewrite E, insert_insert_eq.
Qed.

Lemma dict_lookup_empty (k : string) : (∅ : CaseInsensitiveDict) !! k = None.
Proof. reflexivity. Qed.

Lemma getitem_present (d : CaseInsensitiveDict) (k v : string) :
  d !! k = Some v → Requests.getitem d k = Ok v.
Proof.
  rewrite dict_lookup_eq. unfold Requests.getitem.
  destruct (Requests._store d !! Py.lower k) as [[k0 v0]|]; [|done].
  by intros [= ->].
Qed.

Lemma getitem_absent (d : CaseInsensitiveDict) (k : string) :
  d !! k = None → Requests.getitem d k = Raise (KeyError (Py.lower k)).
Proof.
  rewrite dict_lookup_eq. unfold Requests.getitem.
  by destruct (Requests._store d !! Py.lower k) as [[k0 v0]|].
Qed.

Lemma contains_present (d : CaseInsensitiveDict) (k : string) :
  Requests.contains d k = true ↔ is_Some (d !! k).
Proof.
  unfold Requests.contains. destruct (d !! k) as [v|] eqn:E.
  - rewrite (getitem_present d k v E). split; eauto.
  - rewrite (getitem_absent d k E). split; [done|]. by intros [? ?].
Qed.

Lemma contains_absent (d : CaseInsensitiveDict) (k : string) :
  Requests.contains d k = false ↔ d !! k = None.
Proof.
  unfold Requests.contains. destruct (d !! k) as [v|] eqn:E.
  - by rewrite (getitem_present d k v E).
  - by rewrite (getitem_absent d k E).
Qed.

Lemma contains_is_Some (d : CaseInsensitiveDict) (k : string) :
  Requests.contains d k = bool_decide (is_Some (d !! k)).
Proof.
  destruct (Requests.contains d k) eqn:E; symmetry.
  - by apply bool_decide_eq_true, contains_present.
  - apply bool_decide_eq_false. apply contains_absent in E. rewrite E.
    by intros [? ?].
Qed.

Lemma filter_contains (d : CaseInsensitiveDict) (names : list string) :
  List.filter (λ h, bool_decide (is_Some (d !! h))) names
  = List.filter (Requests.contains d) names.
Proof. apply filter_ext. intros h. symmetry. apply contains_is_Some. Qed.

Lemma comprehension_present (d : CaseInsensitiveDict) (names : list string) :
  Py.comprehension (Requests.getitem d)
    (List.filter (Requests.contains d) names)
  = Ok (selected d names).
Proof.
  induction names as [|h names IH]; [done|].
  unfold selected in *. cbn [List.filter omap list_omap].
  destruct (d !! h) as [v|] eqn:E.
  - assert (Requests.contains d h = true) as ->
      by (apply contains_present; eauto).
    cbn [Py.comprehension]. rewrite (getitem_present d h v E), IH. done.
  - assert (Requests.contains d h = false) as -> by by apply contains_absent.
    done.
Qed.

Lemma str_to_sign_eq (self : HMACAuth.t) (m h u ts : string)
    (d : CaseInsensitiveDict) :
  str_to_sign self m h u ts d = Ok (base_string m h u ts +:+ segment self d).
Proof.
  unfold str_to_sign, segment. rewrite format_string_to_sign. simpl.
  destruct (required_headers self) as [[|n names]|].
  - by rewrite string_app_nil_r.
  - by rewrite comprehension_present.
  - by rewrite string_app_nil_r.
Qed.

Lemma call_eq (urlparse : string → result ParseResult) (self : HMACAuth.t)
    (r : ref) (σ : World) (q : Request) (p : ParseResult) :
  heap σ !! r = Some q →
  urlparse (Requests.url q) = Ok p →
  __call__ urlparse self r σ = Ok (r, signed_world self r q p σ).
Proof.
  intros Hq Hp. unfold __call__, mbind, M_bind, attr, utcnow, lift.
  rewrite Hq. cbv beta iota. rewrite Hp. cbv beta iota.
  assert (heap (elapse σ) !! r = Some q) as Hq' by exact Hq.
  do 3 (rewrite Hq'; cbv beta iota).
  rewrite str_to_sign_eq. cbv beta iota. unfold auth_header.
  rewrite format_auth_header. cbv beta iota.
  unfold setitem_headers. rewrite Hq'. done.
Qed.

Lemma join_cons (sep x y : string) (l : list string) :
  Py.join sep (x :: y :: l) = x +:+ sep +:+ Py.join sep (y :: l).
Proof. reflexivity. Qed.

Lemma join_one_per_line (values : list string) :
  Py.join Py.LF values = one_per_line values.
Proof.
  destruct values as [|v rest]; [done|]. unfold one_per_line.
  revert v. induction rest as [|w rest IH]; intros v.
  - cbn. by rewrite string_app_nil_r.
  - rewrite join_cons, IH. reflexivity.
Qed.

(** ** Sorting *)

Lemma sorted_Sorted (l : list string) : StronglySorted String.le (Py.sorted l).
Proof. apply StronglySorted_merge_sort; apply _. Qed.

Lemma sorted_Permutation (l : list string) : Py.sorted l ≡ₚ l.
Proof. apply merge_sort_Permutation. Qed.

Lemma sorted_unique (l1 l2 : list string) :
  StronglySorted String.le l1 → StronglySorted String.le l2 →
  l1 ≡ₚ l2 → l1 = l2.
Proof. apply StronglySorted_unique; apply _. Qed.

Lemma sorted_of_Permutation (l1 l2 : list string) :
  l1 ≡ₚ l2 → Py.sorted l1 = Py.sorted l2.
Proof.
  intros E. apply sorted_unique; try apply sorted_Sorted.
  by rewrite !sorted_Permutation.
Qed.

Lemma filter_bool_Permutation {A : Type} (f : A → bool) (l1 l2 : list A) :
  l1 ≡ₚ l2 → List.filter f l1 ≡ₚ List.filter f l2.
Proof.
  induction 1 as [|x l1 l2 _ IH|x y l|l1 l2 l3 _ IH1 _ IH2]; simpl.
  - done.
  - destruct (f x); by rewrite IH.
  - destruct (f x), (f y); try done. apply perm_swap.
  - by rewrite IH1.
Qed.

Lemma filter_bool_StronglySorted {A : Type} (R : relation A) (f : A → bool)
    (l : list A) :
  StronglySorted R l → StronglySorted R (List.filter f l).
Proof.
  induction 1 as [|x l _ IH Hx]; simpl; [constructor|].
  destruct (f x); [|done]. constructor; [done|].
  rewrite Forall_forall in *. intros y Hy.
  apply list_elem_of_In, filter_In in Hy as [Hy _].
  by apply Hx, list_elem_of_In.
Qed.

Lemma sorted_filter (f : string → bool) (l : list string) :
  Py.sorted (List.filter f l) = List.filter f (Py.sorted l).
Proof.
  apply sorted_unique.
  - apply sorted_Sorted.
  - apply filter_bool_StronglySorted, sorted_Sorted.
  - rewrite sorted_Permutation. apply filter_bool_Permutation.
    symmetry. apply sorted_Permutation.
Qed.

(** Selecting over the names that are present selects the same values. *)
Lemma selected_filter (d : CaseInsensitiveDict) (names : list string) :
  selected d (List.filter (Requests.contains d) names) = selected d names.
Proof.
  unfold selected. induction names as [|h names IH]; [done|].
  cbn [List.filter omap list_omap].
  destruct (d !! h) as [v|] eqn:E.
  - assert (Requests.contains d h = true) as ->
      by (apply contains_present; eauto).
    cbn [omap list_omap]. by rewrite E, IH.
  - by assert (Requests.contains d h = false) as -> by by apply contains_absent.
Qed.

Lemma selected_absent (d : CaseInsensitiveDict) (names : list string) :
  (∀ h, h ∈ names → d !! h = None) → selected d names = [].
Proof.
  unfold selected. induction names as [|h names IH]; intros Hn; [done|].
  cbn [omap list_omap]. rewrite (Hn h) by apply list_elem_of_here.
  apply IH. intros h' Hh'. apply Hn. by apply list_elem_of_further.
Qed.

(** ** Characters of the produced strings *)

Lemma all_chars_app (P : ascii → Prop) (a b : string) :
  all_chars P (a +:+ b) ↔ all_chars P a ∧ all_chars P b.
Proof. unfold all_chars. rewrite chars_app. apply Forall_app. Qed.

Lemma all_chars_cons (P : ascii → Prop) (c : ascii) (s : string) :
  all_chars P (String c s) ↔ P c ∧ all_chars P s.
Proof. unfold all_chars. simpl. apply Forall_cons. Qed.

Lemma all_chars_impl (P Q : ascii → Prop) (s : string) :
  (∀ c, P c → Q c) → all_chars P s → all_chars Q s.
Proof. intros HPQ Hs. by apply (Forall_impl _ _ _ Hs). Qed.

Lemma is_digit_not_LF (c : ascii) : is_digit c → c ≠ Py.LF_char.
Proof. intros Hc ->. unfold is_digit in Hc. vm_compute in Hc. intuition. Qed.

Lemma list_ind3 {A : Type} (P : list A → Prop) :
  P [] → (∀ a, P [a]) → (∀ a b, P [a; b]) →
  (∀ a b c l, P l → P (a :: b :: c :: l)) → ∀ l, P l.
Proof.
  intros H0 H1 H2 H3. fix IH 1.
  intros [|a [|b [|c l]]]; [apply H0 | apply H1 | apply H2 | apply H3, IH].
Qed.

Lemma char_of_not_LF (i : Z) : Base64.char_of i ≠ Py.LF_char.
Proof.
  unfold Base64.char_of.
  destruct (nth_in_or_default (Z.to_nat i) Base64.alphabet Base64.pad_char)
    as [Hin | ->]; [|done].
  revert Hin. generalize (nth (Z.to_nat i) Base64.alphabet Base64.pad_char).
  intros c Hin ->. revert Hin. vm_compute. intuition discriminate.
Qed.

Lemma b64encode_no_newline (l : list Z) : no_newline (Base64.b64encode l).
Proof.
  unfold no_newline.
  induction l as [|a|a b|a b c l IH] using list_ind3;
    cbn [Base64.b64encode]; rewrite ?all_chars_cons;
    repeat split; try apply char_of_not_LF; try done.
  all: constructor.
Qed.

(** ** Decimal rendering *)

Lemma digit_char_code (d : N) : (d < 10)%N → N_of_ascii (digit_char d) = (48 + d)%N.
Proof. intros Hd. unfold digit_char. apply N_ascii_embedding. lia. Qed.

Lemma digit_char_is_digit (d : N) : (d < 10)%N → is_digit (digit_char d).
Proof. intros Hd. unfold is_digit. rewrite digit_char_code by done. lia. Qed.

Lemma mod10_lt (n : N) : (n mod 10 < 10)%N.
Proof. apply N.mod_lt. lia. Qed.

Lemma decimal_go_digits (fuel : nat) (n : N) (acc : string) :
  all_chars is_digit acc → all_chars is_digit (decimal_go fuel n acc).
Proof.
  revert n acc. induction fuel as [|fuel IH]; intros n acc Hacc; [done|].
  cbn [decimal_go].
  assert (all_chars is_digit (String (digit_char (n mod 10)) acc)) as Hacc'.
  { apply all_chars_cons. split; [|done].
    apply digit_char_is_digit, mod10_lt. }
  destruct (n / 10 =? 0)%N; [done|]. by apply IH.
Qed.

Lemma decimal_go_length (fuel : nat) (n : N) (acc : string) (w : nat) :
  (n < 10 ^ N.of_nat w)%N → (1 ≤ w)%nat →
  (String.length (decimal_go fuel n acc) ≤ String.length acc + w)%nat.
Proof.
  revert n acc w. induction fuel as [|fuel IH]; intros n acc w Hn Hw.
  { simpl. lia. }
  cbn [decimal_go]. destruct (n / 10 =? 0)%N eqn:E.
  { simpl. lia. }
  apply N.eqb_neq in E.
  destruct w as [|[|w]]; [lia| |].
  - exfalso. apply E. apply N.div_small. simpl in Hn. lia.
  - etrans; [apply (IH _ _ (S w))|]; [|lia|simpl; lia].
    apply N.Div0.div_lt_upper_bound.
    replace (N.of_nat (S (S w))) with (N.succ (N.of_nat (S w))) in Hn by lia.
    by rewrite N.pow_succ_r' in Hn.
Qed.

Lemma zeros_length (k : nat) : String.length (zeros k) = k.
Proof. induction k; simpl; congruence. Qed.

Lemma zeros_digits (k : nat) : all_chars is_digit (zeros k).
Proof.
  induction k; [constructor|]. cbn [zeros]. apply all_chars_cons.
  split; [|done]. unfold is_digit. vm_compute. intuition discriminate.
Qed.

Lemma pad0_digits (w : nat) (n : N) : all_chars is_digit (pad0 w n).
Proof.
  unfold pad0. apply all_chars_app. split; [apply zeros_digits|].
  apply decimal_go_digits. constructor.
Qed.

Lemma pad0_length (w : nat) (n : N) :
  (n < 10 ^ N.of_nat w)%N → (1 ≤ w)%nat → String.length (pad0 w n) = w.
Proof.
  intros Hn Hw. unfold pad0. rewrite string_app_length, zeros_length.
  assert (String.length (decimal n) ≤ w)%nat as H
    by apply (decimal_go_length _ n "" w Hn Hw).
  lia.
Qed.

Lemma number_fold (l : list ascii) (a : N) :
  fold_left (λ a c, (10 * a + (N_of_ascii c - 48))%N) l a
  = (a * 10 ^ N.of_nat (length l)
     + fold_left (λ a c, (10 * a + (N_of_ascii c - 48))%N) l 0)%N.
Proof.
  revert a. induction l as [|c l IH]; intros a.
  { simpl. lia. }
  cbn [fold_left]. rewrite IH. rewrite (IH (10 * 0 + _)%N).
  replace (N.of_nat (length (c :: l))) with (N.succ (N.of_nat (length l)))
    by (simpl; lia).
  rewrite N.pow_succ_r'. lia.
Qed.

Lemma chars_length (s : string) : length (chars s) = String.length s.
Proof. induction s; simpl; congruence. Qed.

Lemma number_cons (c : ascii) (s : string) :
  number (String c s)
  = ((N_of_ascii c - 48) * 10 ^ N.of_nat (String.length s) + number s)%N.
Proof.
  unfold number. cbn [chars fold_left].
  rewrite number_fold, chars_length. f_equal; lia.
Qed.

Lemma number_app (a b : string) :
  number (a +:+ b) = (number a * 10 ^ N.of_nat (String.length b) + number b)%N.
Proof.
  unfold number. rewrite chars_app, fold_left_app, number_fold.
  by rewrite chars_length.
Qed.

Lemma number_zeros (k : nat) : number (zeros k) = 0%N.
Proof.
  induction k; [done|]. cbn [zeros]. rewrite number_cons, IHk. done.
Qed.

Lemma pow_succ_nat (b : N) (k : nat) :
  (b ^ N.of_nat (S k) = b * b ^ N.of_nat k)%N.
Proof.
  replace (N.of_nat (S k)) with (N.succ (N.of_nat k)) by lia.
  apply N.pow_succ_r'.
Qed.

Lemma decimal_go_S (fuel : nat) (n : N) (acc : string) :
  decimal_go (S fuel) n acc
  = if (n / 10 =? 0)%N then String (digit_char (n mod 10)) acc
    else decimal_go fuel (n / 10) (String (digit_char (n mod 10)) acc).
Proof. reflexivity. Qed.

Lemma number_decimal_go (f : nat) (n : N) (acc : string) :
  (n < 2 ^ N.of_nat f)%N →
  number (decimal_go (S f) n acc)
  = (n * 10 ^ N.of_nat (String.length acc) + number acc)%N.
Proof.
  revert n acc. induction f as [|f IH]; intros n acc Hn.
  - assert (n = 0%N) as -> by (change (2 ^ N.of_nat 0)%N with 1%N in Hn; lia).
    rewrite decimal_go_S. change (0 / 10 =? 0)%N with true. cbv iota.
    rewrite number_cons. done.
  - pose proof (N.div_mod n 10 ltac:(lia)) as Hdm.
    pose proof (mod10_lt n) as Hm.
    rewrite decimal_go_S. destruct (n / 10 =? 0)%N eqn:E.
    + apply N.eqb_eq in E. rewrite number_cons, digit_char_code by done.
      rewrite E in Hdm. f_equal. f_equal. lia.
    + rewrite pow_succ_nat in Hn.
      assert (n / 10 < 2 ^ N.of_nat f)%N as Hq.
      { revert Hn. generalize (2 ^ N.of_nat f)%N. intros x Hx.
        apply N.Div0.div_lt_upper_bound. lia. }
      rewrite IH by done.
      rewrite number_cons, digit_char_code by done.
      cbn [String.length]. rewrite pow_succ_nat.
      rewrite (N.add_comm 48), N.add_sub.
      generalize (10 ^ N.of_nat (String.length acc))%N (number acc).
      intros y z. rewrite Hdm at 3. ring.
Qed.

Lemma number_decimal (n : N) : number (decimal n) = n.
Proof.
  unfold decimal. rewrite number_decimal_go.
  - change (number "") with 0%N. change (String.length "") with 0%nat.
    change (10 ^ N.of_nat 0)%N with 1%N. lia.
  - rewrite N2Nat.id. apply N.size_gt.
Qed.

Lemma number_pad0 (w : nat) (n : N) : number (pad0 w n) = n.
Proof.
  unfold pad0. cbv zeta. rewrite number_app, number_zeros, number_decimal.
  lia.
Qed.

(** ** Digest and encoding sizes *)

Lemma sha256_digest_length (msg : list Z) : length (SHA256.digest msg) = 32%nat.
Proof.
  unfold SHA256.digest.
  generalize (fold_left SHA256.compress
                (SHA256.blocks (length (SHA256.pad msg)) (SHA256.pad msg))
                SHA256.initial).
  intros h. reflexivity.
Qed.

Lemma hmac_digest_length (key msg : list Z) :
  length (HMAC.sha256_digest key msg) = 32%nat.
Proof. unfold HMAC.sha256_digest. apply sha256_digest_length. Qed.

Lemma b64encode_length (l : list Z) :
  String.length (Base64.b64encode l) = (4 * ((length l + 2) / 3))%nat.
Proof.
  induction l as [|a|a b|a b c l IH] using list_ind3; try reflexivity.
  cbn [Base64.b64encode String.length length]. rewrite IH.
  replace (S (S (S (length l))) + 2)%nat with (1 * 3 + (length l + 2))%nat
    by lia.
  rewrite Nat.div_add_l by lia. lia.
Qed.

(** ** The timestamp *)

Lemma no_newline_literal (s : string) :
  forallb (λ c, negb (Ascii.eqb c Py.LF_char)) (chars s) = true →
  no_newline s.
Proof.
  unfold no_newline, all_chars. rewrite forallb_forall, Forall_forall.
  intros H c Hc ->. apply list_elem_of_In, H in Hc.
  by rewrite Ascii.eqb_refl in Hc.
Qed.

Lemma digits_no_newline (s : string) : all_chars is_digit s → no_newline s.
Proof. apply all_chars_impl, is_digit_not_LF. Qed.

Lemma pad0_no_newline (w : nat) (n : N) : no_newline (pad0 w n).
Proof. apply digits_no_newline, pad0_digits. Qed.

Lemma timestamp_no_newline (now : datetime) : no_newline (timestamp_at now).
Proof.
  unfold timestamp_at, isoformat, isoformat_seconds, no_newline.
  rewrite !all_chars_app.
  repeat split; try apply pad0_no_newline; try by apply no_newline_literal.
  destruct (decide (microsecond now = 0%N)); [by apply no_newline_literal|].
  apply all_chars_app. split; [by apply no_newline_literal|].
  apply pad0_no_newline.
Qed.

Lemma isoformat_seconds_length (now : datetime) :
  Datetime.valid now → String.length (isoformat_seconds now) = 19%nat.
Proof.
  intros (Hy & Hm & Hd & Hh & Hmi & Hs & Hus).
  assert (days_in_month (year now) (month now) ≤ 31)%N as Hdm.
  { unfold days_in_month.
    repeat match goal with |- context [if ?b then _ else _] => destruct b end;
      lia. }
  unfold isoformat_seconds. rewrite !string_app_length.
  rewrite !pad0_length; try lia; try reflexivity.
  all: match goal with |- (_ < 10 ^ ?k)%N =>
         let v := eval vm_compute in (10 ^ k)%N in change (10 ^ k)%N with v
       end; lia.
Qed.

Lemma pad0_renders (w : nat) (n : N) :
  (n < 10 ^ N.of_nat w)%N → (1 ≤ w)%nat → renders w n (pad0 w n).
Proof.
  intros Hn Hw. split; [by apply pad0_length|].
  split; [apply pad0_digits | apply number_pad0].
Qed.

Lemma chars_of_app_elem (c : ascii) (a b : string) :
  c ∈ chars (a +:+ String c b).
Proof. rewrite chars_app. apply elem_of_app. right. constructor. Qed.

(** ** The call *)

Lemma base_string_app (m h u ts x : string) :
  base_string m h u ts +:+ x
  = m +:+ Py.LF +:+ h +:+ Py.LF +:+ u +:+ Py.LF +:+ ts +:+ Py.LF +:+ x.
Proof. unfold base_string. by rewrite !string_app_assoc. Qed.

Lemma init_falsy (k sk : string) (allow : option (list string)) :
  allow = None ∨ allow = Some [] →
  ∀ d, segment (__init__ k sk allow) d = "".
Proof. by intros [-> | ->] d. Qed.

Lemma signed_world_header (self : HMACAuth.t) (r : ref) (q : Request)
    (p : ParseResult) (σ : World) :
  header_of (signed_world self r q p σ) r "Authorization"
  = Some (auth_value self (signed_string self q p (clock σ))
            (timestamp_at (clock σ))).
Proof.
  unfold header_of, signed_world. cbn [heap]. rewrite lookup_insert_eq.
  cbn [mbind option_bind Requests.headers Requests.with_headers].
  by apply dict_lookup_insert.
Qed.

(** The string-to-sign depends on the request's headers only through the
    values selected by the signer's list. *)
Lemma str_to_sign_selected (self : HMACAuth.t) (m h u ts : string)
    (d1 d2 : CaseInsensitiveDict) :
  (∀ names, required_headers self = Some names →
     selected d1 names = selected d2 names) →
  str_to_sign self m h u ts d1 = str_to_sign self m h u ts d2.
Proof.
  intros Hsel. rewrite !str_to_sign_eq. unfold segment.
  destruct (required_headers self) as [[|n names]|]; try done.
  by rewrite (Hsel (n :: names)).
Qed.

Lemma auth_value_no_newline (self : HMACAuth.t) (s : string) (now : datetime) :
  no_newline (api_key self) → no_newline (auth_value self s (timestamp_at now)).
Proof.
  intros Hk. unfold auth_value, no_newline. rewrite !all_chars_app.
  repeat split; try by apply no_newline_literal.
  - done.
  - apply b64encode_no_newline.
  - apply timestamp_no_newline.
Qed.

(** * The platform functions on known values *)

Example join_three : Py.join "," ["a"; "b"; "c"] = "a,b,c".
Proof. reflexivity. Qed.

Example join_none : Py.join Py.LF [] = "".
Proof. reflexivity. Qed.

Example sorted_by_bytes :
  Py.sorted ["b"; "a"; "B"; "ab"; ""] = [""; "B"; "a"; "ab"; "b"].
Proof. vm_compute. reflexivity. Qed.

Example format_fields (x y : string) :
  Py.format "<{a}|{b}|{a}>{{}}" [("a", x); ("b", y)]
  = Ok ("<" +:+ x +:+ "|" +:+ y +:+ "|" +:+ x +:+ ">{}").
Proof. reflexivity. Qed.

Example format_missing :
  Py.format "{a}{c}" [("a", "1")] = Raise (KeyError "c").
Proof. reflexivity. Qed.

Example sha256_abc :
  Sample.hex (SHA256.digest (Bytes.of_string "abc"))
  = "ba7816bf8f01cfea414140de5dae2223b00361a396177a9cb410ff61f20015ad".
Proof. vm_compute. reflexivity. Qed.

Example sha256_two_blocks :
  Sample.hex (SHA256.digest (Bytes.of_string
         "abcdbcdecdefdefgefghfghighijhijkijkljklmklmnlmnomnopnopq"))
  = "248d6a61d20638b8e5c026930c3e6039a33ce45964ff2167f6ecedd419db06c1".
Proof. vm_compute. reflexivity. Qed.

Example hmac_rfc4231_case2 :
  Sample.hex (HMAC.sha256_digest (Bytes.of_string "Jefe")
         (Bytes.of_string "what do ya want for nothing?"))
  = "5bdcc146bf60754e6a042426089575c75a003f089d2739839dec58b964ec3843".
Proof. vm_compute. reflexivity. Qed.

Example hmac_rfc4231_case6 :
  Sample.hex (HMAC.sha256_digest (replicate 131 0xAA)
         (Bytes.of_string
            "Test Using Larger Than Block-Size Key - Hash Key First"))
  = "60e431591ee0b67f0d8a26aacbf5b77f8e0bc6213728c5140546040f0ee37f54".
Proof. vm_compute. reflexivity. Qed.

Example b64encode_rfc4648 :
  Base64.b64encode (Bytes.of_string "foobar") = "Zm9vYmFy"
  ∧ Base64.b64encode (Bytes.of_string "fooba") = "Zm9vYmE="
  ∧ Base64.b64encode (Bytes.of_string "foob") = "Zm9vYg=="
  ∧ Base64.b64encode [251; 255; 254] = "+//+".
Proof. vm_compute. done. Qed.

Example isoformat_whole_second :
  Datetime.isoformat Sample.midnight = "2024-01-01T00:00:00".
Proof. vm_compute. reflexivity. Qed.

Example isoformat_with_microseconds :
  Datetime.isoformat Sample.afternoon = "2024-01-01T13:05:59.001234".
Proof. vm_compute. reflexivity. Qed.

Example sample_urlparse_things :
  Sample.urlparse (Requests.url Sample.things) = Ok Sample.parsed.
Proof. vm_compute. reflexivity. Qed.

Example sample_call :
  (λ '(r, σ), (r, header_of σ r "Authorization"))
    <$> __call__ Sample.urlparse
          (__init__ "k1" "s3cr3t" (Some ["X-Foo"; "X-Bar"; "X-None"]))
          1%positive Sample.world
  = Ok (1%positive,
        Some ("APIKey=k1,"
              +:+ "Signature=kbE88wbMM6L8PcJsxP9Gq6MdDh3McLm4LWjVx3Plof0=,"
              +:+ "Timestamp=2024-01-01T13:05:59.001234-00:00")).
Proof. vm_compute. reflexivity. Qed.

(** * The claims *)

(** C1. The string-to-sign is the method, the host, the path and query and
    the timestamp, each followed by one line feed, and then, when the
    signer's list of names is not empty, the values of the listed headers
    that the request has (a header is found by its name in any case), in
    the order of the list, with a line feed between two values and none at
    the end.  For GET, example.com, /v1/things?x=1, the timestamp
    2024-01-01T00:00:00.000000-00:00 and no names it is those four lines;
    with the names x-foo, X-Bar, X-Gone given to the signer and the headers
    X-Foo: v1, x-bar: v2, Accept: text/plain the four lines are followed by
    v2, a line feed, v1. *)
Theorem C1_string_to_sign_format (self : HMACAuth.t)
    (method host uri timestamp : string) (headers : CaseInsensitiveDict) :
  str_to_sign self method host uri timestamp headers
  = Ok (method +:+ Py.LF +:+ host +:+ Py.LF +:+ uri +:+ Py.LF
        +:+ timestamp +:+ Py.LF
        +:+ match required_headers self with
            | Some ((_ :: _) as names) =>
                one_per_line (omap (λ h, headers !! h) names)
            | _ => ""
            end)
  ∧ (∀ (k sk : string) (d : CaseInsensitiveDict),
       str_to_sign (__init__ k sk None) "GET" "example.com" "/v1/things?x=1"
         "2024-01-01T00:00:00.000000-00:00" d
       = Ok ("GET" +:+ Py.LF +:+ "example.com" +:+ Py.LF +:+ "/v1/things?x=1"
             +:+ Py.LF +:+ "2024-01-01T00:00:00.000000-00:00" +:+ Py.LF)
       ∧ str_to_sign (__init__ k sk (Some [])) "GET" "example.com"
           "/v1/things?x=1" "2024-01-01T00:00:00.000000-00:00" d
         = str_to_sign (__init__ k sk None) "GET" "example.com"
             "/v1/things?x=1" "2024-01-01T00:00:00.000000-00:00" d)
  ∧ (∀ k sk : string,
       str_to_sign (__init__ k sk (Some ["x-foo"; "X-Bar"; "X-Gone"])) "GET"
         "example.com" "/v1/things?x=1" "2024-01-01T00:00:00.000000-00:00"
         {[ "X-Foo" := "v1"; "x-bar" := "v2"; "Accept" := "text/plain" ]}
       = Ok ("GET" +:+ Py.LF +:+ "example.com" +:+ Py.LF +:+ "/v1/things?x=1"
             +:+ Py.LF +:+ "2024-01-01T00:00:00.000000-00:00" +:+ Py.LF
             +:+ "v2" +:+ Py.LF +:+ "v1")).
Proof.
  split; [|split].
  - rewrite str_to_sign_eq, base_string_app. unfold segment, selected.
    destruct (required_headers self) as [[|n names]|]; try reflexivity.
    by rewrite join_one_per_line.
  - intros k sk d. rewrite !str_to_sign_eq. split; reflexivity.
  - intros k sk. vm_compute. reflexivity.
Qed.

(** C2. The Authorization value a call produces is APIKey= and the API
    key, then ,Signature= and the padded base64 text of the 32-byte
    HMAC-SHA256 digest, keyed by the secret key, of the bytes of the
    string-to-sign, then ,Timestamp= and the timestamp that is inside the
    string-to-sign; nothing is added between or around the values.  The
    digest is the one of RFC 4231 (its test case 2 is reproduced); for the
    API key k1, the secret key s3cr3t and the four lines GET, example.com,
    /v1/things?x=1, 2024-01-01T00:00:00.000000-00:00 the signature is
    aNawuCLkytGB6+ExI0EoxZioHJni3d+Nd09prE0EHkU= and the value is made of
    k1, that signature and that timestamp. *)
Theorem C2_authorization_value (urlparse : string → result ParseResult)
    (self : HMACAuth.t) (r : ref) (σ : World) (q : Request) (p : ParseResult) :
  heap σ !! r = Some q →
  urlparse (Requests.url q) = Ok p →
  (∃ (s : string) (σ' : World),
     let timestamp := timestamp_at (clock σ) in
     let digest :=
       HMAC.sha256_digest (Bytes.of_string (secret_key self))
         (Bytes.of_string s) in
     str_to_sign self (Requests.method q) (netloc p) (Requests.path_url q)
       timestamp (Requests.headers q) = Ok s
     ∧ __call__ urlparse self r σ = Ok (r, σ')
     ∧ header_of σ' r "Authorization"
       = Some ("APIKey=" +:+ api_key self +:+ ",Signature="
               +:+ Base64.b64encode digest +:+ ",Timestamp=" +:+ timestamp)
     ∧ length digest = 32%nat
     ∧ String.length (Base64.b64encode digest) = 44%nat)
  ∧ HMAC.sha256_digest (Bytes.of_string "Jefe")
      (Bytes.of_string "what do ya want for nothing?")
    = [0x5b; 0xdc; 0xc1; 0x46; 0xbf; 0x60; 0x75; 0x4e;
       0x6a; 0x04; 0x24; 0x26; 0x08; 0x95; 0x75; 0xc7;
       0x5a; 0x00; 0x3f; 0x08; 0x9d; 0x27; 0x39; 0x83;
       0x9d; 0xec; 0x58; 0xb9; 0x64; 0xec; 0x38; 0x43]
  ∧ auth_header (__init__ "k1" "s3cr3t" None)
      ("GET" +:+ Py.LF +:+ "example.com" +:+ Py.LF +:+ "/v1/things?x=1"
       +:+ Py.LF +:+ "2024-01-01T00:00:00.000000-00:00" +:+ Py.LF)
      "2024-01-01T00:00:00.000000-00:00"
    = Ok ("APIKey=k1,"
          +:+ "Signature=aNawuCLkytGB6+ExI0EoxZioHJni3d+Nd09prE0EHkU=,"
          +:+ "Timestamp=2024-01-01T00:00:00.000000-00:00").
Proof.
  intros Hq Hp. split; [|split; vm_compute; reflexivity].
  eexists _, _. cbv zeta.
  split; [apply str_to_sign_eq|].
  split; [by apply call_eq|].
  split; [apply signed_world_header|].
  split; [apply hmac_digest_length|].
  rewrite b64encode_length, hmac_digest_length. reflexivity.
Qed.

Lemma C2_authorization_value_witness :
  let self := __init__ "k1" "s3cr3t" (Some ["X-Foo"; "X-Bar"]) in
  heap Sample.world !! 1%positive = Some Sample.things
  ∧ Sample.urlparse (Requests.url Sample.things) = Ok Sample.parsed
  ∧ ∃ (s : string) (σ' : World),
      s = "GET" +:+ Py.LF +:+ "example.com" +:+ Py.LF +:+ "/v1/things?x=1"
          +:+ Py.LF +:+ "2024-01-01T13:05:59.001234-00:00" +:+ Py.LF
          +:+ "v2" +:+ Py.LF +:+ "v1"
      ∧ __call__ Sample.urlparse self 1%positive Sample.world
        = Ok (1%positive, σ')
      ∧ header_of σ' 1%positive "Authorization"
        = Some ("APIKey=k1,"
                +:+ "Signature=kbE88wbMM6L8PcJsxP9Gq6MdDh3McLm4LWjVx3Plof0=,"
                +:+ "Timestamp=2024-01-01T13:05:59.001234-00:00")
      ∧ length (HMAC.sha256_digest (Bytes.of_string "s3cr3t")
                  (Bytes.of_string s)) = 32%nat.
Proof.
  intros self.
  split; [reflexivity|]. split; [vm_compute; reflexivity|].
  destruct (C2_authorization_value Sample.urlparse self 1%positive Sample.world
              Sample.things Sample.parsed)
    as [(s & σ' & Hs & Hc & Hh & Hl & _) _];
    [reflexivity | vm_compute; reflexivity |].
  exists s, σ'.
  assert (s = "GET" +:+ Py.LF +:+ "example.com" +:+ Py.LF +:+ "/v1/things?x=1"
              +:+ Py.LF +:+ "2024-01-01T13:05:59.001234-00:00" +:+ Py.LF
              +:+ "v2" +:+ Py.LF +:+ "v1") as Es.
  { vm_compute in Hs. injection Hs as <-. vm_compute. reflexivity. }
  split; [exact Es|]. split; [exact Hc|]. split; [|exact Hl].
  rewrite Hh, Es. vm_compute. reflexivity.
Defined.

(** C3. With a list of names that is not empty, a listed name the request
    does not have (in any case) raises nothing: the call returns, and the
    string-to-sign is the one of a signer that lists only the names the
    request has; the values of those names, taken in their sorted order,
    follow the four lines, with a line feed between two values and none at
    the end.  With the names X-Nope, x-foo, X-Bar and the headers X-Foo: v1,
    X-Bar: v2 the four lines are followed by v2, a line feed, v1. *)
Theorem C3_absent_header_skipped (urlparse : string → result ParseResult)
    (k sk : string) (names : list string) (r : ref) (σ : World) (q : Request)
    (p : ParseResult) :
  names ≠ [] →
  heap σ !! r = Some q →
  urlparse (Requests.url q) = Ok p →
  let d := Requests.headers q in
  let present := List.filter (λ h, bool_decide (is_Some (d !! h))) names in
  let sign allow :=
    str_to_sign (__init__ k sk allow) (Requests.method q) (netloc p)
      (Requests.path_url q) (timestamp_at (clock σ)) d in
  (∃ (s : string) (σ' : World) (ordered : list string),
     __call__ urlparse (__init__ k sk (Some names)) r σ = Ok (r, σ')
     ∧ sign (Some names) = Ok s
     ∧ sign (Some present) = Ok s
     ∧ ordered ≡ₚ present
     ∧ StronglySorted String.le ordered
     ∧ Forall (λ h, is_Some (d !! h)) ordered
     ∧ s = Requests.method q +:+ Py.LF +:+ netloc p +:+ Py.LF
           +:+ Requests.path_url q +:+ Py.LF +:+ timestamp_at (clock σ)
           +:+ Py.LF +:+ one_per_line (omap (λ h, d !! h) ordered))
  ∧ str_to_sign (__init__ k sk (Some ["X-Nope"; "x-foo"; "X-Bar"])) "GET"
      "example.com" "/v1/things?x=1" "2024-01-01T00:00:00.000000-00:00"
      {[ "X-Foo" := "v1"; "X-Bar" := "v2" ]}
    = Ok ("GET" +:+ Py.LF +:+ "example.com" +:+ Py.LF +:+ "/v1/things?x=1"
          +:+ Py.LF +:+ "2024-01-01T00:00:00.000000-00:00" +:+ Py.LF
          +:+ "v2" +:+ Py.LF +:+ "v1").
Proof.
  intros Hne Hq Hp d present sign. split; [|vm_compute; reflexivity].
  exists (signed_string (__init__ k sk (Some names)) q p (clock σ)),
    (signed_world (__init__ k sk (Some names)) r q p σ), (Py.sorted present).
  split; [by apply call_eq|].
  assert (segment (__init__ k sk (Some present)) d
          = one_per_line (selected d (Py.sorted present))) as Hseg.
  { unfold segment. cbn [required_headers __init__].
    rewrite <- join_one_per_line. by destruct (Py.sorted present). }
  assert (segment (__init__ k sk (Some names)) d
          = segment (__init__ k sk (Some present)) d) as Hsame.
  { rewrite Hseg, <- join_one_per_line.
    unfold segment. cbn [required_headers __init__].
    unfold present. rewrite filter_contains, sorted_filter, selected_filter.
    by destruct (Py.sorted names). }
  split; [apply str_to_sign_eq|].
  split.
  { unfold sign, signed_string. fold d. by rewrite str_to_sign_eq, Hsame. }
  split; [apply sorted_Permutation|].
  split; [apply sorted_Sorted|].
  split.
  { apply Forall_forall. intros h Hh.
    rewrite sorted_Permutation in Hh. unfold present in Hh.
    apply list_elem_of_In, filter_In in Hh as [_ Hh].
    by apply bool_decide_eq_true in Hh. }
  unfold signed_string. fold d. by rewrite Hsame, Hseg, base_string_app.
Qed.

Lemma C3_absent_header_skipped_witness :
  let names := ["X-Nope"; "x-foo"; "X-BAR"; "X-Gone"] in
  let d := Requests.headers Sample.things in
  let present := List.filter (λ h, bool_decide (is_Some (d !! h))) names in
  let sign allow :=
    str_to_sign (__init__ "k1" "s3cr3t" allow) (Requests.method Sample.things)
      (netloc Sample.parsed) (Requests.path_url Sample.things)
      (timestamp_at (clock Sample.world)) d in
  names ≠ []
  ∧ heap Sample.world !! 1%positive = Some Sample.things
  ∧ Sample.urlparse (Requests.url Sample.things) = Ok Sample.parsed
  ∧ present = ["x-foo"; "X-BAR"]
  ∧ ∃ (s : string) (σ' : World),
      __call__ Sample.urlparse (__init__ "k1" "s3cr3t" (Some names))
        1%positive Sample.world = Ok (1%positive, σ')
      ∧ sign (Some names) = Ok s
      ∧ sign (Some present) = Ok s
      ∧ s = "GET" +:+ Py.LF +:+ "example.com" +:+ Py.LF +:+ "/v1/things?x=1"
            +:+ Py.LF +:+ "2024-01-01T13:05:59.001234-00:00" +:+ Py.LF
            +:+ "v2" +:+ Py.LF +:+ "v1".
Proof.
  intros names d present sign.
  split; [discriminate|]. split; [reflexivity|].
  split; [vm_compute; reflexivity|].
  split; [vm_compute; reflexivity|].
  destruct (C3_absent_header_skipped Sample.urlparse "k1" "s3cr3t" names
              1%positive Sample.world Sample.things Sample.parsed)
    as [(s & σ' & ordered & Hc & Hs & Hs' & _) _];
    [discriminate | reflexivity | vm_compute; reflexivity |].
  exists s, σ'.
  split; [exact Hc|]. split; [exact Hs|]. split; [exact Hs'|].
  vm_compute in Hs. injection Hs as <-. vm_compute. reflexivity.
Defined.
(** C4. Two signers built from the same keys and from lists of names that
    are permutations of each other sign alike: equal strings-to-sign, equal
    signatures, equal calls, the list being sorted when the signer is built.
    With the names X-Foo, X-Bar and the headers X-Foo: v1, X-Bar: v2 what
    follows the four lines is v2, a line feed, v1. *)
Theorem C4_allow_list_order_irrelevant (urlparse : string → result ParseResult)
    (k sk : string) (l1 l2 : list string) (r : ref) (σ : World)
    (m h u ts : string) (d : CaseInsensitiveDict) :
  l1 ≡ₚ l2 →
  str_to_sign (__init__ k sk (Some l1)) m h u ts d
  = str_to_sign (__init__ k sk (Some l2)) m h u ts d
  ∧ (∀ s, encoded_sig (__init__ k sk (Some l1)) s
          = encoded_sig (__init__ k sk (Some l2)) s)
  ∧ __call__ urlparse (__init__ k sk (Some l1)) r σ
    = __call__ urlparse (__init__ k sk (Some l2)) r σ
  ∧ required_headers (__init__ k sk (Some ["X-Foo"; "X-Bar"]))
    = Some ["X-Bar"; "X-Foo"]
  ∧ str_to_sign (__init__ k sk (Some ["X-Foo"; "X-Bar"])) m h u ts
      {[ "X-Foo" := "v1"; "X-Bar" := "v2" ]}
    = Ok (base_string m h u ts +:+ ("v2" +:+ Py.LF +:+ "v1")).
Proof.
  intros Hperm.
  assert (__init__ k sk (Some l1) = __init__ k sk (Some l2)) as ->.
  { unfold __init__. by rewrite (sorted_of_Permutation l1 l2). }
  do 3 (split; [reflexivity|]).
  split; [vm_compute; reflexivity|].
  rewrite str_to_sign_eq. reflexivity.
Qed.

Lemma C4_allow_list_order_irrelevant_witness :
  let d := Requests.headers Sample.things in
  let ts := timestamp_at Sample.afternoon in
  ["B"; "A"] ≡ₚ ["A"; "B"]
  ∧ str_to_sign (__init__ "k1" "s3cr3t" (Some ["B"; "A"])) "GET" "example.com"
      "/v1/things?x=1" ts d
    = str_to_sign (__init__ "k1" "s3cr3t" (Some ["A"; "B"])) "GET"
        "example.com" "/v1/things?x=1" ts d
  ∧ __call__ Sample.urlparse (__init__ "k1" "s3cr3t" (Some ["B"; "A"]))
      1%positive Sample.world
    = __call__ Sample.urlparse (__init__ "k1" "s3cr3t" (Some ["A"; "B"]))
        1%positive Sample.world.
Proof.
  intros d ts.
  pose proof (C4_allow_list_order_irrelevant Sample.urlparse "k1" "s3cr3t"
                ["B"; "A"] ["A"; "B"] 1%positive Sample.world "GET"
                "example.com" "/v1/things?x=1" ts d (perm_swap "A" "B" []))
    as (Hs & _ & Hc & _).
  split; [apply perm_swap|]. split; [exact Hs | exact Hc].
Defined.

(** C5 (amended).  The timestamp of a call is the clock's UTC reading as
    YYYY-MM-DDTHH:MM:SS, followed by a point and the six digits of the
    microsecond when the microsecond is not 0 and by nothing when it is 0,
    followed by the literal -00:00; it is the timestamp of the
    string-to-sign and of the Authorization value. *)
Theorem C5_timestamp_format (urlparse : string → result ParseResult)
    (self : HMACAuth.t) (r : ref) (σ : World) (q : Request) (p : ParseResult) :
  heap σ !! r = Some q →
  urlparse (Requests.url q) = Ok p →
  Datetime.valid (clock σ) →
  let now := clock σ in
  ∃ (σ' : World) (s Y Mo D H Mi S fraction : string),
    let timestamp :=
      Y +:+ "-" +:+ Mo +:+ "-" +:+ D +:+ "T" +:+ H +:+ ":" +:+ Mi +:+ ":"
      +:+ S +:+ fraction +:+ "-00:00" in
    __call__ urlparse self r σ = Ok (r, σ')
    ∧ str_to_sign self (Requests.method q) (netloc p) (Requests.path_url q)
        timestamp (Requests.headers q) = Ok s
    ∧ header_of σ' r "Authorization" = Some (auth_value self s timestamp)
    ∧ renders 4 (year now) Y ∧ renders 2 (month now) Mo
    ∧ renders 2 (day now) D ∧ renders 2 (hour now) H
    ∧ renders 2 (minute now) Mi ∧ renders 2 (second now) S
    ∧ ((microsecond now = 0%N ∧ fraction = "")
       ∨ (microsecond now ≠ 0%N
          ∧ ∃ digits, fraction = "." +:+ digits
                      ∧ renders 6 (microsecond now) digits)).
Proof.
  intros Hq Hp (Hy & Hm & Hd & Hh & Hmi & Hs & Hus) now.
  assert (days_in_month (year now) (month now) ≤ 31)%N as Hdm.
  { unfold days_in_month.
    repeat match goal with |- context [if ?b then _ else _] => destruct b end;
      lia. }
  assert (∀ w n b, (10 ^ N.of_nat w = b)%N → (n < b)%N → (1 ≤ w)%nat →
                   renders w n (pad0 w n)) as Hr.
  { intros w n b <-. apply pad0_renders. }
  exists (signed_world self r q p σ), (signed_string self q p now),
    (pad0 4 (year now)), (pad0 2 (month now)), (pad0 2 (day now)),
    (pad0 2 (hour now)), (pad0 2 (minute now)), (pad0 2 (second now)),
    (if decide (microsecond now = 0%N) then ""
     else "." +:+ pad0 6 (microsecond now)).
  cbv zeta.
  assert (timestamp_at now
          = pad0 4 (year now) +:+ "-" +:+ pad0 2 (month now) +:+ "-"
            +:+ pad0 2 (day now) +:+ "T" +:+ pad0 2 (hour now) +:+ ":"
            +:+ pad0 2 (minute now) +:+ ":" +:+ pad0 2 (second now)
            +:+ (if decide (microsecond now = 0%N) then ""
                 else "." +:+ pad0 6 (microsecond now)) +:+ "-00:00") as <-.
  { unfold timestamp_at, isoformat, isoformat_seconds.
    by rewrite !string_app_assoc. }
  split; [by apply call_eq|].
  split; [apply str_to_sign_eq|].
  split; [apply signed_world_header|].
  subst now.
  split; [apply (Hr 4%nat _ 10000%N eq_refl); lia|].
  do 5 (split; [apply (Hr 2%nat _ 100%N eq_refl); lia|]).
  destruct (decide (microsecond (clock σ) = 0%N)) as [E|E]; [by left|].
  right. split; [done|]. eexists. split; [done|].
  apply (Hr 6%nat _ 1000000%N eq_refl); lia.
Qed.

Lemma C5_timestamp_format_witness :
  let self := __init__ "k1" "s3cr3t" None in
  let now := Sample.afternoon in
  heap Sample.world !! 1%positive = Some Sample.things
  ∧ Sample.urlparse (Requests.url Sample.things) = Ok Sample.parsed
  ∧ Datetime.valid (clock Sample.world)
  ∧ ∃ (σ' : World) (s Y Mo D H Mi S fraction : string),
      let timestamp :=
        Y +:+ "-" +:+ Mo +:+ "-" +:+ D +:+ "T" +:+ H +:+ ":" +:+ Mi +:+ ":"
        +:+ S +:+ fraction +:+ "-00:00" in
      __call__ Sample.urlparse self 1%positive Sample.world
      = Ok (1%positive, σ')
      ∧ str_to_sign self (Requests.method Sample.things)
          (netloc Sample.parsed) (Requests.path_url Sample.things)
          timestamp (Requests.headers Sample.things) = Ok s
      ∧ header_of σ' 1%positive "Authorization"
        = Some (auth_value self s timestamp)
      ∧ renders 4 (year now) Y ∧ renders 2 (month now) Mo
      ∧ renders 2 (day now) D ∧ renders 2 (hour now) H
      ∧ renders 2 (minute now) Mi ∧ renders 2 (second now) S
      ∧ ((microsecond now = 0%N ∧ fraction = "")
         ∨ (microsecond now ≠ 0%N
            ∧ ∃ digits, fraction = "." +:+ digits
                        ∧ renders 6 (microsecond now) digits)).
Proof.
  intros self now.
  assert (Datetime.valid (clock Sample.world)) as Hv
    by (vm_compute; repeat split; easy).
  split; [reflexivity|]. split; [vm_compute; reflexivity|].
  split; [exact Hv|].
  apply (C5_timestamp_format Sample.urlparse self 1%positive Sample.world
           Sample.things Sample.parsed);
    [reflexivity | vm_compute; reflexivity | exact Hv].
Defined.

(** C5 as stated fails when the clock reads a whole second: the call made
    at 2024-01-01 00:00:00 and 0 microseconds stamps the request with
    2024-01-01T00:00:00-00:00, which has no fraction of a second. *)
Lemma C5_counterexample :
  Datetime.valid (clock Sample.midnight_world)
  ∧ (λ '(r, σ), header_of σ r "Authorization")
      <$> __call__ Sample.urlparse (__init__ "k1" "s3cr3t" None) 1%positive
            Sample.midnight_world
    = Ok (Some ("APIKey=k1,"
                +:+ "Signature=9wWJ6fD5/Ig/hw3cVxQKf/tO2Fopb67DHl/DF/QIP2g=,"
                +:+ "Timestamp=2024-01-01T00:00:00-00:00"))
  ∧ timestamp_at (clock Sample.midnight_world) = "2024-01-01T00:00:00-00:00"
  ∧ ¬ microsecond_precision (timestamp_at (clock Sample.midnight_world)).
Proof.
  split; [vm_compute; repeat split; easy|].
  split; [vm_compute; reflexivity|].
  split; [vm_compute; reflexivity|].
  intros (seconds & digits & E & _).
  assert ("."%char ∈ chars (timestamp_at (clock Sample.midnight_world))) as H.
  { rewrite E. apply (chars_of_app_elem "."%char seconds). }
  apply list_elem_of_In in H. vm_compute in H. intuition discriminate.
Qed.

(** C6. With the list of names absent or empty, two runs that agree on
    the method, the host, the path and query, the keys and the clock
    reading give the same string-to-sign, the same signature and the same
    Authorization value, whatever else the two worlds and the two requests
    hold. *)
Theorem C6_signing_deterministic (urlparse : string → result ParseResult)
    (k sk : string) (allow : option (list string)) (r1 r2 : ref)
    (σ1 σ2 : World) (q1 q2 : Request) (p1 p2 : ParseResult) :
  allow = None ∨ allow = Some [] →
  heap σ1 !! r1 = Some q1 →
  heap σ2 !! r2 = Some q2 →
  urlparse (Requests.url q1) = Ok p1 →
  urlparse (Requests.url q2) = Ok p2 →
  Requests.method q1 = Requests.method q2 →
  netloc p1 = netloc p2 →
  Requests.path_url q1 = Requests.path_url q2 →
  clock σ1 = clock σ2 →
  let self := __init__ k sk allow in
  ∃ (s sig value : string) (σ1' σ2' : World),
    str_to_sign self (Requests.method q1) (netloc p1) (Requests.path_url q1)
      (timestamp_at (clock σ1)) (Requests.headers q1) = Ok s
    ∧ str_to_sign self (Requests.method q2) (netloc p2) (Requests.path_url q2)
        (timestamp_at (clock σ2)) (Requests.headers q2) = Ok s
    ∧ encoded_sig self s = sig
    ∧ __call__ urlparse self r1 σ1 = Ok (r1, σ1')
    ∧ __call__ urlparse self r2 σ2 = Ok (r2, σ2')
    ∧ header_of σ1' r1 "Authorization" = Some value
    ∧ header_of σ2' r2 "Authorization" = Some value
    ∧ value = "APIKey=" +:+ k +:+ ",Signature=" +:+ sig +:+ ",Timestamp="
              +:+ timestamp_at (clock σ1).
Proof.
  intros Hallow Hq1 Hq2 Hp1 Hp2 Hm Hh Hu Hc self.
  pose proof (init_falsy k sk allow Hallow) as Hseg. fold self in Hseg.
  eexists _, _, _, _, _.
  split; [apply str_to_sign_eq|].
  split.
  { rewrite str_to_sign_eq, <- Hm, <- Hh, <- Hu, <- Hc, !Hseg. reflexivity. }
  split; [reflexivity|].
  split; [by apply call_eq|].
  split; [by apply call_eq|].
  split; [apply signed_world_header|].
  split; [|reflexivity].
  rewrite signed_world_header. unfold signed_string.
  rewrite <- Hm, <- Hh, <- Hu, <- Hc, !Hseg. reflexivity.
Qed.

Lemma C6_signing_deterministic_witness :
  let self := __init__ "k1" "s3cr3t" (Some []) in
  (Some ([] : list string) = None ∨ Some ([] : list string) = Some [])
  ∧ heap Sample.world !! 1%positive = Some Sample.things
  ∧ heap Sample.other_world !! 7%positive = Some Sample.things_again
  ∧ Requests.headers Sample.things ≠ Requests.headers Sample.things_again
  ∧ ∃ (s sig value : string) (σ1' σ2' : World),
      str_to_sign self "GET" "example.com" "/v1/things?x=1"
        (timestamp_at Sample.afternoon) (Requests.headers Sample.things)
      = Ok s
      ∧ str_to_sign self "GET" "example.com" "/v1/things?x=1"
          (timestamp_at Sample.afternoon)
          (Requests.headers Sample.things_again) = Ok s
      ∧ encoded_sig self s = sig
      ∧ __call__ Sample.urlparse self 1%positive Sample.world
        = Ok (1%positive, σ1')
      ∧ __call__ Sample.urlparse self 7%positive Sample.other_world
        = Ok (7%positive, σ2')
      ∧ header_of σ1' 1%positive "Authorization" = Some value
      ∧ header_of σ2' 7%positive "Authorization" = Some value
      ∧ value = "APIKey=" +:+ "k1" +:+ ",Signature=" +:+ sig
                +:+ ",Timestamp=" +:+ timestamp_at Sample.afternoon.
Proof.
  intros self.
  split; [by right|]. split; [reflexivity|]. split; [reflexivity|].
  split.
  { intros E. apply (f_equal (λ d : CaseInsensitiveDict, d !! "X-Foo")) in E.
    vm_compute in E. discriminate E. }
  apply (C6_signing_deterministic Sample.urlparse "k1" "s3cr3t" (Some [])
           1%positive 7%positive Sample.world Sample.other_world
           Sample.things Sample.things_again Sample.parsed Sample.parsed);
    try reflexivity; try (vm_compute; reflexivity).
  by right.
Defined.

(** C7. Two signing contexts that agree on the selected header values and
    on three of method, host, path and query, timestamp, and differ in the
    fourth, have different strings-to-sign. *)
Theorem C7_field_change_changes_string (self : HMACAuth.t)
    (m1 h1 u1 t1 m2 h2 u2 t2 : string) (d1 d2 : CaseInsensitiveDict) :
  segment self d1 = segment self d2 →
  (m1 ≠ m2 ∧ h1 = h2 ∧ u1 = u2 ∧ t1 = t2)
  ∨ (m1 = m2 ∧ h1 ≠ h2 ∧ u1 = u2 ∧ t1 = t2)
  ∨ (m1 = m2 ∧ h1 = h2 ∧ u1 ≠ u2 ∧ t1 = t2)
  ∨ (m1 = m2 ∧ h1 = h2 ∧ u1 = u2 ∧ t1 ≠ t2) →
  ∃ s1 s2 : string,
    str_to_sign self m1 h1 u1 t1 d1 = Ok s1
    ∧ str_to_sign self m2 h2 u2 t2 d2 = Ok s2
    ∧ s1 ≠ s2.
Proof.
  intros Hseg Hdiff. eexists _, _.
  split; [apply str_to_sign_eq|]. split; [apply str_to_sign_eq|].
  rewrite Hseg. intros E%string_app_inv_tail. unfold base_string in E.
  destruct Hdiff as [(Hne & -> & -> & ->) | [(-> & Hne & -> & ->)
    | [(-> & -> & Hne & ->) | (-> & -> & -> & Hne)]]]; apply Hne.
  - by apply string_app_inv_tail in E.
  - apply String.app_inj, String.app_inj in E.
    by apply string_app_inv_tail in E.
  - do 4 apply String.app_inj in E.
    by apply string_app_inv_tail in E.
  - do 6 apply String.app_inj in E.
    by apply string_app_inv_tail in E.
Qed.

Lemma C7_field_change_changes_string_witness :
  let self := __init__ "k1" "s3cr3t" (Some ["X-Foo"]) in
  let d := Requests.headers Sample.things in
  let ts := timestamp_at Sample.afternoon in
  segment self d = segment self d
  ∧ ("GET" = "GET" ∧ "example.com" ≠ "example.org"
     ∧ "/v1/things?x=1" = "/v1/things?x=1" ∧ ts = ts)
  ∧ ∃ s1 s2 : string,
      str_to_sign self "GET" "example.com" "/v1/things?x=1" ts d = Ok s1
      ∧ str_to_sign self "GET" "example.org" "/v1/things?x=1" ts d = Ok s2
      ∧ s1 ≠ s2.
Proof.
  intros self d ts.
  split; [reflexivity|]. split; [by repeat split|].
  apply (C7_field_change_changes_string self "GET" "example.com"
           "/v1/things?x=1" ts "GET" "example.org" "/v1/things?x=1" ts d d);
    [reflexivity|].
  right. left. by repeat split.
Defined.

(** C8. A call sets the Authorization header of the request it is given
    to the computed value, whatever the header held before and in whatever
    case it was written, and returns the reference it was given; the method,
    the URL, the path, the body and every other header of that request are
    as before, and so are all other objects. *)
Theorem C8_only_authorization_changes (urlparse : string → result ParseResult)
    (self : HMACAuth.t) (r : ref) (σ : World) (q : Request) (p : ParseResult) :
  heap σ !! r = Some q →
  urlparse (Requests.url q) = Ok p →
  ∃ (σ' : World) (q' : Request) (s value : string),
    __call__ urlparse self r σ = Ok (r, σ')
    ∧ heap σ' !! r = Some q'
    ∧ str_to_sign self (Requests.method q) (netloc p) (Requests.path_url q)
        (timestamp_at (clock σ)) (Requests.headers q) = Ok s
    ∧ auth_header self s (timestamp_at (clock σ)) = Ok value
    ∧ (∀ name, Py.lower name = "authorization" →
         Requests.headers q' !! name = Some value)
    ∧ (∀ name, Py.lower name ≠ "authorization" →
         Requests.headers q' !! name = Requests.headers q !! name)
    ∧ Requests._store (Requests.headers q') !! "authorization"
      = Some ("Authorization", value)
    ∧ (∀ key, key ≠ "authorization" →
         Requests._store (Requests.headers q') !! key
         = Requests._store (Requests.headers q) !! key)
    ∧ Requests.method q' = Requests.method q
    ∧ Requests.url q' = Requests.url q
    ∧ Requests.path_url q' = Requests.path_url q
    ∧ Requests.body q' = Requests.body q
    ∧ (∀ r', r' ≠ r → heap σ' !! r' = heap σ !! r').
Proof.
  intros Hq Hp. eexists _, _, _, _.
  split; [by apply call_eq|].
  split; [apply lookup_insert_eq|].
  split; [apply str_to_sign_eq|].
  split; [apply format_auth_header|].
  split; [intros name Hn; apply dict_lookup_insert; symmetry; exact Hn|].
  split.
  { intros name Hn. apply dict_lookup_insert_ne.
    intros E. apply Hn. symmetry. exact E. }
  split; [apply lookup_insert_eq|].
  split; [intros key Hk; by apply lookup_insert_ne|].
  do 4 (split; [reflexivity|]).
  intros r' Hr'. by apply lookup_insert_ne.
Qed.

Lemma C8_only_authorization_changes_witness :
  let self := __init__ "k1" "s3cr3t" None in
  let σ := Sample.stale_world in
  let q := Sample.things_stale in
  heap σ !! 7%positive = Some q
  ∧ Requests.keys (Requests.headers q) ≡ₚ ["authorization"; "Accept"]
  ∧ Requests.headers q !! "Authorization" = Some "stale"
  ∧ Sample.urlparse (Requests.url q) = Ok Sample.parsed
  ∧ ∃ (σ' : World) (q' : Request) (value : string),
      __call__ Sample.urlparse self 7%positive σ = Ok (7%positive, σ')
      ∧ heap σ' !! 7%positive = Some q'
      ∧ value = "APIKey=k1,"
                +:+ "Signature=gJkojyL0vvKR7CAJsdPoEXKcgHKAxugeEtodaXSdRfM=,"
                +:+ "Timestamp=2024-01-01T13:05:59.001234-00:00"
      ∧ Requests.headers q' !! "Authorization" = Some value
      ∧ Requests.headers q' !! "authorization" = Some value
      ∧ Requests.headers q' !! "Accept" = Some "text/plain"
      ∧ Requests.keys (Requests.headers q') ≡ₚ ["Authorization"; "Accept"]
      ∧ Requests.method q' = "POST"
      ∧ Requests.url q' = "https://example.com/v1/things?x=1"
      ∧ Requests.path_url q' = "/v1/things?x=1"
      ∧ Requests.body q' = "payload"
      ∧ heap σ' !! 1%positive = Some Sample.things.
Proof.
  intros self σ q.
  split; [reflexivity|].
  split; [vm_compute; first [reflexivity | apply perm_swap]|].
  split; [reflexivity|]. split; [vm_compute; reflexivity|].
  destruct (C8_only_authorization_changes Sample.urlparse self 7%positive σ q
              Sample.parsed)
    as (σ' & q' & s & value & Hc & Hq' & Hs & Hv & Ha & Ho & Hk & Hko & Hm
        & Hu & Hp & Hb & Hr);
    [reflexivity | vm_compute; reflexivity |].
  exists σ', q', value.
  split; [exact Hc|]. split; [exact Hq'|].
  split; [|split; [by apply Ha|]; split; [by apply Ha|]].
  { vm_compute in Hs. injection Hs as <-.
    vm_compute in Hv. injection Hv as <-. vm_compute. reflexivity. }
  split; [by rewrite Ho|].
  split.
  { clear - Hc Hq'. vm_compute in Hc. injection Hc as <-.
    vm_compute in Hq'. injection Hq' as <-.
    vm_compute. first [reflexivity | apply perm_swap]. }
  split; [by rewrite Hm|]. split; [by rewrite Hu|].
  split; [by rewrite Hp|]. split; [by rewrite Hb|].
  by rewrite Hr.
Defined.

(** C9 (amended).  When the API key contains no line feed, the Authorization
    value a call produces contains no line feed, for every secret key and
    every request. *)
Theorem C9_authorization_single_line (urlparse : string → result ParseResult)
    (self : HMACAuth.t) (r : ref) (σ : World) (q : Request) (p : ParseResult) :
  no_newline (api_key self) →
  heap σ !! r = Some q →
  urlparse (Requests.url q) = Ok p →
  ∃ (σ' : World) (value : string),
    __call__ urlparse self r σ = Ok (r, σ')
    ∧ header_of σ' r "Authorization" = Some value
    ∧ no_newline value.
Proof.
  intros Hk Hq Hp. eexists _, _.
  split; [by apply call_eq|].
  split; [apply signed_world_header|].
  by apply auth_value_no_newline.
Qed.

Lemma C9_authorization_single_line_witness :
  let self := __init__ "k1" "s3cr3t" (Some ["X-Foo"; "X-Bar"]) in
  no_newline (api_key self)
  ∧ heap Sample.world !! 1%positive = Some Sample.things
  ∧ Sample.urlparse (Requests.url Sample.things) = Ok Sample.parsed
  ∧ ∃ (σ' : World) (value : string),
      __call__ Sample.urlparse self 1%positive Sample.world
      = Ok (1%positive, σ')
      ∧ header_of σ' 1%positive "Authorization" = Some value
      ∧ no_newline value.
Proof.
  intros self.
  assert (no_newline (api_key self)) as Hk
    by (apply no_newline_literal; reflexivity).
  split; [exact Hk|]. split; [reflexivity|].
  split; [vm_compute; reflexivity|].
  apply (C9_authorization_single_line Sample.urlparse self 1%positive
           Sample.world Sample.things Sample.parsed);
    [exact Hk | reflexivity | vm_compute; reflexivity].
Defined.

(** C9 as stated fails for an API key that contains a line feed: the key
    is put into the value as it is. *)
Lemma C9_counterexample :
  ∃ (σ' : World) (value : string),
    __call__ Sample.urlparse (__init__ ("k" +:+ Py.LF +:+ "1") "s3cr3t" None)
      1%positive Sample.world = Ok (1%positive, σ')
    ∧ header_of σ' 1%positive "Authorization" = Some value
    ∧ value = "APIKey=k" +:+ Py.LF
              +:+ "1,Signature=QsEn1h9Yw+oPRPr7jKjWV2wrURzfn4Igldmt7jZrbJQ=,"
              +:+ "Timestamp=2024-01-01T13:05:59.001234-00:00"
    ∧ ¬ no_newline value.
Proof.
  eexists _, _.
  split.
  { apply (call_eq _ _ _ _ Sample.things Sample.parsed);
      [reflexivity | vm_compute; reflexivity]. }
  split; [apply signed_world_header|].
  split; [vm_compute; reflexivity|].
  unfold no_newline, all_chars. rewrite Forall_forall.
  intros H. apply (H Py.LF_char); [|reflexivity].
  vm_compute. do 8 apply list_elem_of_further. apply list_elem_of_here.
Qed.

(** C10. When the signer's list of names is not empty and the request has
    none of the listed headers, in whatever case their names are written,
    the string-to-sign is the four lines alone, and the call does what the
    call of a signer with the same keys and no list does: the same
    Authorization value on the same request. *)
Theorem C10_no_listed_header_present (urlparse : string → result ParseResult)
    (self : HMACAuth.t) (names : list string) (r : ref) (σ : World)
    (q : Request) (p : ParseResult) :
  required_headers self = Some names →
  names ≠ [] →
  (∀ h, h ∈ names → Requests.headers q !! h = None) →
  heap σ !! r = Some q →
  urlparse (Requests.url q) = Ok p →
  let plain := __init__ (api_key self) (secret_key self) None in
  let base :=
    base_string (Requests.method q) (netloc p) (Requests.path_url q)
      (timestamp_at (clock σ)) in
  str_to_sign self (Requests.method q) (netloc p) (Requests.path_url q)
    (timestamp_at (clock σ)) (Requests.headers q) = Ok base
  ∧ ∃ (σ' : World) (value : string),
      __call__ urlparse self r σ = Ok (r, σ')
      ∧ __call__ urlparse plain r σ = Ok (r, σ')
      ∧ header_of σ' r "Authorization" = Some value
      ∧ auth_header plain base (timestamp_at (clock σ)) = Ok value.
Proof.
  intros Hreq Hne Habs Hq Hp plain base.
  assert (segment self (Requests.headers q) = "") as Hseg.
  { unfold segment. rewrite Hreq. destruct names; [done|].
    by rewrite selected_absent. }
  split.
  { rewrite str_to_sign_eq, Hseg. by rewrite string_app_nil_r. }
  assert (signed_string self q p (clock σ) = base) as Hs.
  { unfold signed_string. by rewrite Hseg, string_app_nil_r. }
  assert (signed_string plain q p (clock σ) = base) as Hs'.
  { unfold signed_string. apply string_app_nil_r. }
  eexists _, _.
  split; [by apply call_eq|].
  split.
  { rewrite (call_eq _ plain r σ q p Hq Hp). unfold signed_world.
    by rewrite Hs, Hs'. }
  split; [apply signed_world_header|].
  rewrite Hs. apply format_auth_header.
Qed.

Lemma C10_no_listed_header_present_witness :
  let names := ["x-nope"; "X-Gone"] in
  let self := __init__ "k1" "s3cr3t" (Some names) in
  let q := Sample.things in
  let σ := Sample.world in
  let plain := __init__ (api_key self) (secret_key self) None in
  let base :=
    base_string (Requests.method q) (netloc Sample.parsed)
      (Requests.path_url q) (timestamp_at (clock σ)) in
  required_headers self = Some ["X-Gone"; "x-nope"]
  ∧ ["X-Gone"; "x-nope"] ≠ []
  ∧ (∀ h, h ∈ ["X-Gone"; "x-nope"] → Requests.headers q !! h = None)
  ∧ Requests.headers q !! "x-foo" = Some "v1"
  ∧ str_to_sign self (Requests.method q) (netloc Sample.parsed)
      (Requests.path_url q) (timestamp_at (clock σ)) (Requests.headers q)
    = Ok ("GET" +:+ Py.LF +:+ "example.com" +:+ Py.LF +:+ "/v1/things?x=1"
          +:+ Py.LF +:+ "2024-01-01T13:05:59.001234-00:00" +:+ Py.LF)
  ∧ ∃ (σ' : World) (value : string),
      __call__ Sample.urlparse self 1%positive σ = Ok (1%positive, σ')
      ∧ __call__ Sample.urlparse plain 1%positive σ = Ok (1%positive, σ')
      ∧ header_of σ' 1%positive "Authorization" = Some value
      ∧ auth_header plain base (timestamp_at (clock σ)) = Ok value.
Proof.
  intros names self q σ plain base.
  assert (required_headers self = Some ["X-Gone"; "x-nope"]) as Hreq
    by (vm_compute; reflexivity).
  assert (∀ h, h ∈ ["X-Gone"; "x-nope"] → Requests.headers q !! h = None)
    as Habs.
  { intros h Hh. apply elem_of_cons in Hh as [-> | Hh]; [reflexivity|].
    apply list_elem_of_singleton in Hh as ->. reflexivity. }
  split; [exact Hreq|]. split; [discriminate|]. split; [exact Habs|].
  split; [reflexivity|].
  destruct (C10_no_listed_header_present Sample.urlparse self
              ["X-Gone"; "x-nope"] 1%positive σ q Sample.parsed)
    as [Hs Hc];
    [exact Hreq | discriminate | exact Habs | reflexivity
    | vm_compute; reflexivity |].
  split; [|exact Hc].
  rewrite Hs. vm_compute. reflexivity.
Defined.

(** * Further properties of the signer *)

Lemma lacks_app (c : ascii) (a b : string) :
  lacks c (a +:+ b) ↔ lacks c a ∧ lacks c b.
Proof. apply all_chars_app. Qed.

Lemma lacks_literal (c : ascii) (s : string) :
  forallb (λ x, negb (Ascii.eqb x c)) (chars s) = true → lacks c s.
Proof.
  unfold lacks, all_chars. rewrite forallb_forall, Forall_forall.
  intros H x Hx ->. apply list_elem_of_In, H in Hx.
  by rewrite Ascii.eqb_refl in Hx.
Qed.

(** A string is cut in one way only at the first occurrence of [c]. *)
Lemma split_at_first (c : ascii) (a1 a2 r1 r2 : string) :
  lacks c a1 → lacks c a2 →
  a1 +:+ String c r1 = a2 +:+ String c r2 → a1 = a2 ∧ r1 = r2.
Proof.
  revert a2. induction a1 as [|x a1 IH]; intros [|y a2] H1 H2 E.
  - by injection E as ->.
  - injection E as <- _. apply all_chars_cons in H2 as [H2 _]. done.
  - injection E as -> _. apply all_chars_cons in H1 as [H1 _]. done.
  - injection E as -> E.
    apply all_chars_cons in H1 as [_ H1]. apply all_chars_cons in H2 as [_ H2].
    destruct (IH a2 H1 H2 E) as [-> ->]. done.
Qed.

(** Strings of equal length at the front of equal strings are equal. *)
Lemma split_at_length (a1 a2 r1 r2 : string) :
  String.length a1 = String.length a2 →
  a1 +:+ r1 = a2 +:+ r2 → a1 = a2 ∧ r1 = r2.
Proof.
  revert a2. induction a1 as [|x a1 IH]; intros [|y a2] Hl E;
    try discriminate Hl.
  - done.
  - injection E as -> E. injection Hl as Hl.
    destruct (IH a2 Hl E) as [-> ->]. done.
Qed.

Lemma call_cases (urlparse : string → result ParseResult) (self : HMACAuth.t)
    (r : ref) (σ : World) :
  __call__ urlparse self r σ
  = match heap σ !! r with
    | None => Raise (AttributeError "url")
    | Some q =>
        match urlparse (Requests.url q) with
        | Ok p => Ok (r, signed_world self r q p σ)
        | Raise e => Raise e
        end
    end.
Proof.
  destruct (heap σ !! r) as [q|] eqn:Hq.
  - destruct (urlparse (Requests.url q)) as [p|e] eqn:Hp.
    + by apply call_eq.
    + unfold __call__, mbind, M_bind, attr, lift. rewrite Hq.
      cbv beta iota. by rewrite Hp.
  - unfold __call__, mbind, M_bind, attr. by rewrite Hq.
Qed.

Lemma selected_agree (d1 d2 : CaseInsensitiveDict) (names : list string) :
  (∀ h, h ∈ names → d1 !! h = d2 !! h) →
  selected d1 names = selected d2 names.
Proof.
  unfold selected. induction names as [|n names IH]; intros H; [done|].
  cbn [omap list_omap]. rewrite (H n) by apply list_elem_of_here.
  rewrite IH; [done|]. intros h Hh. apply H. by apply list_elem_of_further.
Qed.

Lemma segment_agree (self : HMACAuth.t) (d1 d2 : CaseInsensitiveDict) :
  (∀ h, h ∈ listed self → d1 !! h = d2 !! h) →
  segment self d1 = segment self d2.
Proof.
  unfold segment, listed. intros H.
  destruct (required_headers self) as [[|n names]|]; try done.
  by rewrite (selected_agree d1 d2).
Qed.

Lemma selected_insert_unlisted (d : CaseInsensitiveDict)
    (names : list string) (h v : string) :
  Py.lower h ∉ Py.lower <$> names →
  selected (<[h := v]> d) names = selected d names.
Proof.
  intros Hh. apply selected_agree. intros n Hn.
  apply dict_lookup_insert_ne. intros E. apply Hh. rewrite E.
  by apply list_elem_of_fmap_2.
Qed.

Lemma selected_single (d : CaseInsensitiveDict) (names : list string)
    (a v : string) :
  NoDup (Py.lower <$> names) → a ∈ names →
  (∀ n, n ∈ names → d !! n = None) →
  selected (<[a := v]> d) names = [v].
Proof.
  unfold selected. induction names as [|n names IH]; intros Hnd Ha Habs.
  { by apply elem_of_nil in Ha. }
  rewrite fmap_cons in Hnd. apply NoDup_cons in Hnd as [Hn Hnd].
  cbn [omap list_omap].
  destruct (decide (Py.lower a = Py.lower n)) as [E|Hne].
  - rewrite (dict_lookup_insert d a n v E). f_equal.
    change (selected (<[a := v]> d) names = []).
    rewrite selected_insert_unlisted by by rewrite E.
    apply selected_absent. intros n' Hn'. apply Habs. by right.
  - rewrite (dict_lookup_insert_ne d a n v Hne). rewrite Habs by left.
    apply IH; [done| |].
    + apply elem_of_cons in Ha as [->|Ha]; done.
    + intros n' Hn'. apply Habs. by right.
Qed.

(** X1. The constructor keeps the two keys as given and stores the names
    in ascending order, every name as often as it was given; without names
    it stores none, and building a signer from a stored list changes
    nothing. *)
Theorem X1_init_sorts_names (k sk : string) (names : list string) :
  let self := __init__ k sk (Some names) in
  api_key self = k
  ∧ secret_key self = sk
  ∧ required_headers (__init__ k sk None) = None
  ∧ ∃ stored : list string,
      required_headers self = Some stored
      ∧ stored ≡ₚ names
      ∧ StronglySorted String.le stored
      ∧ __init__ k sk (Some stored) = self.
Proof.
  intros self. do 3 (split; [reflexivity|]).
  exists (Py.sorted names).
  split; [reflexivity|]. split; [apply sorted_Permutation|].
  split; [apply sorted_Sorted|].
  unfold self, __init__. do 2 f_equal.
  apply sorted_unique; try apply sorted_Sorted. apply sorted_Permutation.
Qed.

(** X2. Headers whose names the signer does not list are not signed: two
    requests that agree on the method, the host, the path and on every
    listed header (a header is found by its name in any case) get the same
    string-to-sign and the same Authorization value at the same clock
    reading, whatever their other headers are. *)
Theorem X2_unlisted_headers_unsigned (urlparse : string → result ParseResult)
    (self : HMACAuth.t) (r1 r2 : ref) (σ1 σ2 : World) (q1 q2 : Request)
    (p1 p2 : ParseResult) :
  heap σ1 !! r1 = Some q1 →
  heap σ2 !! r2 = Some q2 →
  urlparse (Requests.url q1) = Ok p1 →
  urlparse (Requests.url q2) = Ok p2 →
  Requests.method q1 = Requests.method q2 →
  netloc p1 = netloc p2 →
  Requests.path_url q1 = Requests.path_url q2 →
  clock σ1 = clock σ2 →
  (∀ h, h ∈ listed self →
     Requests.headers q1 !! h = Requests.headers q2 !! h) →
  ∃ (s value : string) (σ1' σ2' : World),
    str_to_sign self (Requests.method q1) (netloc p1) (Requests.path_url q1)
      (timestamp_at (clock σ1)) (Requests.headers q1) = Ok s
    ∧ str_to_sign self (Requests.method q2) (netloc p2) (Requests.path_url q2)
        (timestamp_at (clock σ2)) (Requests.headers q2) = Ok s
    ∧ __call__ urlparse self r1 σ1 = Ok (r1, σ1')
    ∧ __call__ urlparse self r2 σ2 = Ok (r2, σ2')
    ∧ header_of σ1' r1 "Authorization" = Some value
    ∧ header_of σ2' r2 "Authorization" = Some value.
Proof.
  intros Hq1 Hq2 Hp1 Hp2 Hm Hh Hu Hc Hsel.
  pose proof (segment_agree self _ _ Hsel) as Hseg.
  eexists _, _, _, _.
  split; [apply str_to_sign_eq|].
  split; [by rewrite str_to_sign_eq, <- Hm, <- Hh, <- Hu, <- Hc, <- Hseg|].
  split; [by apply call_eq|].
  split; [by apply call_eq|].
  split; [apply signed_world_header|].
  rewrite signed_world_header. unfold signed_string.
  by rewrite <- Hm, <- Hh, <- Hu, <- Hc, <- Hseg.
Qed.

Lemma X2_unlisted_headers_unsigned_witness :
  let self := __init__ "k1" "s3cr3t" (Some ["x-foo"]) in
  let σ := Sample2.two_headers in
  heap σ !! 1%positive = Some Sample.things
  ∧ heap σ !! 2%positive = Some Sample2.things_other_bar
  ∧ Requests.headers Sample.things !! "X-Bar"
    ≠ Requests.headers Sample2.things_other_bar !! "X-Bar"
  ∧ (∀ h, h ∈ listed self →
       Requests.headers Sample.things !! h
       = Requests.headers Sample2.things_other_bar !! h)
  ∧ ∃ (s value : string) (σ1' σ2' : World),
      s = "GET" +:+ Py.LF +:+ "example.com" +:+ Py.LF +:+ "/v1/things?x=1"
          +:+ Py.LF +:+ "2024-01-01T13:05:59.001234-00:00" +:+ Py.LF +:+ "v1"
      ∧ str_to_sign self "GET" "example.com" "/v1/things?x=1"
          (timestamp_at (clock σ)) (Requests.headers Sample.things) = Ok s
      ∧ str_to_sign self "GET" "example.com" "/v1/things?x=1"
          (timestamp_at (clock σ)) (Requests.headers Sample2.things_other_bar)
        = Ok s
      ∧ __call__ Sample.urlparse self 1%positive σ = Ok (1%positive, σ1')
      ∧ __call__ Sample.urlparse self 2%positive σ = Ok (2%positive, σ2')
      ∧ header_of σ1' 1%positive "Authorization" = Some value
      ∧ header_of σ2' 2%positive "Authorization" = Some value.
Proof.
  intros self σ.
  assert (∀ h, h ∈ listed self →
            Requests.headers Sample.things !! h
            = Requests.headers Sample2.things_other_bar !! h) as Hsel.
  { intros h Hh. apply list_elem_of_singleton in Hh as ->.
    vm_compute. reflexivity. }
  split; [reflexivity|]. split; [reflexivity|].
  split; [vm_compute; discriminate|]. split; [exact Hsel|].
  destruct (X2_unlisted_headers_unsigned Sample.urlparse self 1%positive
              2%positive σ σ Sample.things Sample2.things_other_bar
              Sample.parsed Sample.parsed)
    as (s & value & σ1' & σ2' & Hs1 & Hs2 & Hc1 & Hc2 & Hv1 & Hv2);
    try reflexivity; try (vm_compute; reflexivity); [exact Hsel|].
  exists s, value, σ1', σ2'.
  split; [|by repeat split].
  clear - Hs1. vm_compute in Hs1. injection Hs1 as <-. vm_compute. reflexivity.
Defined.

(** X3. A signed value is not tied to the name of its header: when the
    listed names differ in more than their case and the request has a
    single listed header, the string-to-sign is the four lines followed by
    its value, the same whichever listed name carries the value. *)
Theorem X3_value_not_bound_to_name (self : HMACAuth.t) (a b v : string)
    (m h u ts : string) (d : CaseInsensitiveDict) :
  NoDup (Py.lower <$> listed self) →
  a ∈ listed self →
  b ∈ listed self →
  (∀ n, n ∈ listed self → d !! n = None) →
  str_to_sign self m h u ts (<[a := v]> d) = Ok (base_string m h u ts +:+ v)
  ∧ str_to_sign self m h u ts (<[b := v]> d)
    = str_to_sign self m h u ts (<[a := v]> d).
Proof.
  intros Hnd Ha Hb Habs.
  assert (∀ x, x ∈ listed self → segment self (<[x := v]> d) = v) as Hseg.
  { intros x Hx. unfold segment, listed in *.
    destruct (required_headers self) as [[|n names]|];
      try by apply elem_of_nil in Hx.
    by rewrite (selected_single d (n :: names) x v). }
  rewrite !str_to_sign_eq, (Hseg a Ha), (Hseg b Hb). done.
Qed.

Lemma X3_value_not_bound_to_name_witness :
  let self := __init__ "k1" "s3cr3t" (Some ["X-User"; "X-Role"]) in
  let d : CaseInsensitiveDict := {[ "Accept" := "text/plain" ]} in
  NoDup (Py.lower <$> listed self)
  ∧ "X-Role" ∈ listed self
  ∧ "X-User" ∈ listed self
  ∧ (∀ n, n ∈ listed self → d !! n = None)
  ∧ str_to_sign self "GET" "example.com" "/" "t" (<["X-Role" := "admin"]> d)
    = Ok (base_string "GET" "example.com" "/" "t" +:+ "admin")
  ∧ str_to_sign self "GET" "example.com" "/" "t" (<["X-User" := "admin"]> d)
    = str_to_sign self "GET" "example.com" "/" "t" (<["X-Role" := "admin"]> d).
Proof.
  intros self d.
  assert (listed self = ["X-Role"; "X-User"]) as Hl
    by (vm_compute; reflexivity).
  assert (NoDup (Py.lower <$> listed self)) as Hnd.
  { rewrite Hl. apply NoDup_cons. split.
    - intros H%list_elem_of_singleton. discriminate H.
    - apply NoDup_singleton. }
  assert ("X-Role" ∈ listed self) as Ha by (rewrite Hl; left).
  assert ("X-User" ∈ listed self) as Hb by (rewrite Hl; right; left).
  assert (∀ n, n ∈ listed self → d !! n = None) as Habs.
  { rewrite Hl. intros n Hn. apply elem_of_cons in Hn as [->|Hn];
      [reflexivity|]. apply list_elem_of_singleton in Hn as ->. reflexivity. }
  split; [exact Hnd|]. split; [exact Ha|]. split; [exact Hb|].
  split; [exact Habs|].
  exact (X3_value_not_bound_to_name self "X-Role" "X-User" "admin" "GET"
           "example.com" "/" "t" d Hnd Ha Hb Habs).
Defined.

(** X4. A line feed inside a header value is not told from the boundary
    between two values: with the two names a and b stored, which differ in
    more than their case, one header a holding v1, a line feed and v2 is
    signed like the two headers a holding v1 and b holding v2. *)
Theorem X4_line_feed_in_value_collides (self : HMACAuth.t)
    (a b v1 v2 m h u ts : string) (d : CaseInsensitiveDict) :
  required_headers self = Some [a; b] →
  Py.lower a ≠ Py.lower b →
  d !! a = None →
  d !! b = None →
  str_to_sign self m h u ts (<[a := v1 +:+ Py.LF +:+ v2]> d)
  = str_to_sign self m h u ts (<[a := v1]> (<[b := v2]> d))
  ∧ <[a := v1 +:+ Py.LF +:+ v2]> d !! b = None
  ∧ <[a := v1]> (<[b := v2]> d) !! b = Some v2
  ∧ <[a := v1 +:+ Py.LF +:+ v2]> d ≠ <[a := v1]> (<[b := v2]> d).
Proof.
  intros Hreq Hab Ha Hb.
  assert (<[a := v1 +:+ Py.LF +:+ v2]> d !! b = None) as H1
    by by rewrite dict_lookup_insert_ne.
  assert (<[a := v1]> (<[b := v2]> d) !! b = Some v2) as H2
    by by rewrite dict_lookup_insert_ne, dict_lookup_insert.
  split; [|split; [done|split; [done|]]].
  - rewrite !str_to_sign_eq. f_equal. f_equal.
    unfold segment, selected. rewrite Hreq. cbn [omap list_omap].
    rewrite !(dict_lookup_insert _ a a) by done. rewrite H1, H2.
    reflexivity.
  - intros E. rewrite E, H2 in H1. discriminate H1.
Qed.

Lemma X4_line_feed_in_value_collides_witness :
  let self := __init__ "k1" "s3cr3t" (Some ["X-Role"; "X-Group"]) in
  let d : CaseInsensitiveDict := ∅ in
  required_headers self = Some ["X-Group"; "X-Role"]
  ∧ Py.lower "X-Group" ≠ Py.lower "X-Role"
  ∧ d !! "X-Group" = None
  ∧ d !! "X-Role" = None
  ∧ str_to_sign self "GET" "example.com" "/" "t"
      (<["X-Group" := "staff" +:+ Py.LF +:+ "admin"]> d)
    = str_to_sign self "GET" "example.com" "/" "t"
        (<["X-Group" := "staff"]> (<["X-Role" := "admin"]> d))
  ∧ str_to_sign self "GET" "example.com" "/" "t"
      (<["X-Group" := "staff" +:+ Py.LF +:+ "admin"]> d)
    = Ok ("GET" +:+ Py.LF +:+ "example.com" +:+ Py.LF +:+ "/" +:+ Py.LF
          +:+ "t" +:+ Py.LF +:+ "staff" +:+ Py.LF +:+ "admin")
  ∧ <["X-Group" := "staff" +:+ Py.LF +:+ "admin"]> d
    ≠ <["X-Group" := "staff"]> (<["X-Role" := "admin"]> d).
Proof.
  intros self d.
  assert (required_headers self = Some ["X-Group"; "X-Role"]) as Hreq
    by (vm_compute; reflexivity).
  split; [exact Hreq|]. split; [discriminate|].
  split; [reflexivity|]. split; [reflexivity|].
  destruct (X4_line_feed_in_value_collides self "X-Group" "X-Role" "staff"
              "admin" "GET" "example.com" "/" "t" d)
    as (Hs & _ & _ & Hd);
    [exact Hreq | discriminate | reflexivity | reflexivity |].
  split; [exact Hs|]. split; [vm_compute; reflexivity|]. exact Hd.
Defined.

(** X5. When the method, the host, the path and the timestamp contain no
    line feed, the string-to-sign determines all four of them and what
    follows them: two equal strings-to-sign come from equal fields. *)
Theorem X5_line_free_fields_determined (self1 self2 : HMACAuth.t)
    (m1 h1 u1 t1 m2 h2 u2 t2 : string) (d1 d2 : CaseInsensitiveDict) :
  no_newline m1 → no_newline h1 → no_newline u1 → no_newline t1 →
  no_newline m2 → no_newline h2 → no_newline u2 → no_newline t2 →
  str_to_sign self1 m1 h1 u1 t1 d1 = str_to_sign self2 m2 h2 u2 t2 d2 →
  m1 = m2 ∧ h1 = h2 ∧ u1 = u2 ∧ t1 = t2
  ∧ segment self1 d1 = segment self2 d2.
Proof.
  intros Hm1 Hh1 Hu1 Ht1 Hm2 Hh2 Hu2 Ht2 E.
  rewrite !str_to_sign_eq, !base_string_app in E. injection E as E.
  apply (split_at_first Py.LF_char) in E as [-> E]; [|done..].
  apply (split_at_first Py.LF_char) in E as [-> E]; [|done..].
  apply (split_at_first Py.LF_char) in E as [-> E]; [|done..].
  apply (split_at_first Py.LF_char) in E as [-> E]; [|done..].
  done.
Qed.

Lemma X5_line_free_fields_determined_witness :
  let self := __init__ "k1" "s3cr3t" (Some ["X-Foo"]) in
  let d := Requests.headers Sample.things in
  let ts := timestamp_at Sample.afternoon in
  no_newline "GET" ∧ no_newline "example.com" ∧ no_newline "/v1/things?x=1"
  ∧ no_newline ts
  ∧ str_to_sign self ("GET" +:+ Py.LF +:+ "a") "b" "/" ts d
    = str_to_sign self "GET" ("a" +:+ Py.LF +:+ "b") "/" ts d
  ∧ ("GET" = "GET" ∧ "example.com" = "example.com"
     ∧ "/v1/things?x=1" = "/v1/things?x=1" ∧ ts = ts
     ∧ segment self d = segment self d).
Proof.
  intros self d ts.
  assert (no_newline "GET") as H1 by (apply no_newline_literal; reflexivity).
  assert (no_newline "example.com") as H2
    by (apply no_newline_literal; reflexivity).
  assert (no_newline "/v1/things?x=1") as H3
    by (apply no_newline_literal; reflexivity).
  assert (no_newline ts) as H4 by apply timestamp_no_newline.
  split; [exact H1|]. split; [exact H2|]. split; [exact H3|].
  split; [exact H4|].
  split; [rewrite !str_to_sign_eq; reflexivity|].
  exact (X5_line_free_fields_determined self self "GET" "example.com"
           "/v1/things?x=1" ts "GET" "example.com" "/v1/things?x=1" ts d d
           H1 H2 H3 H4 H1 H2 H3 H4 eq_refl).
Defined.

Lemma pad0_inj (w : nat) (n1 n2 : N) : pad0 w n1 = pad0 w n2 → n1 = n2.
Proof. intros E. by rewrite <- (number_pad0 w n1), E, number_pad0. Qed.

Lemma timestamp_at_fields (now : datetime) :
  timestamp_at now
  = pad0 4 (year now) +:+ "-" +:+ pad0 2 (month now) +:+ "-"
    +:+ pad0 2 (day now) +:+ "T" +:+ pad0 2 (hour now) +:+ ":"
    +:+ pad0 2 (minute now) +:+ ":" +:+ pad0 2 (second now)
    +:+ (if decide (microsecond now = 0%N) then ""
         else "." +:+ pad0 6 (microsecond now)) +:+ "-00:00".
Proof.
  unfold timestamp_at, isoformat, isoformat_seconds.
  by rewrite !string_app_assoc.
Qed.

Lemma valid_field_widths (now : datetime) :
  Datetime.valid now →
  String.length (pad0 4 (year now)) = 4%nat
  ∧ String.length (pad0 2 (month now)) = 2%nat
  ∧ String.length (pad0 2 (day now)) = 2%nat
  ∧ String.length (pad0 2 (hour now)) = 2%nat
  ∧ String.length (pad0 2 (minute now)) = 2%nat
  ∧ String.length (pad0 2 (second now)) = 2%nat.
Proof.
  intros (Hy & Hm & Hd & Hh & Hmi & Hs & Hus).
  assert (days_in_month (year now) (month now) ≤ 31)%N as Hdm.
  { unfold days_in_month.
    repeat match goal with |- context [if ?b then _ else _] => destruct b end;
      lia. }
  assert (∀ w n b, (10 ^ N.of_nat w = b)%N → (n < b)%N → (1 ≤ w)%nat →
                   String.length (pad0 w n) = w) as Hw.
  { intros w n b <-. apply pad0_length. }
  split; [apply (Hw 4%nat _ 10000%N eq_refl); lia|].
  repeat split; apply (Hw 2%nat _ 100%N eq_refl); lia.
Qed.

(** X6. The timestamp determines the clock reading: two valid readings
    with the same timestamp are the same reading, so calls made at
    different instants carry different timestamps. *)
Theorem X6_timestamp_determines_clock (d1 d2 : datetime) :
  Datetime.valid d1 →
  Datetime.valid d2 →
  timestamp_at d1 = timestamp_at d2 →
  d1 = d2.
Proof.
  intros Hv1 Hv2 E.
  destruct (valid_field_widths d1 Hv1) as (Ly1 & Lm1 & Ld1 & Lh1 & Li1 & Ls1).
  destruct (valid_field_widths d2 Hv2) as (Ly2 & Lm2 & Ld2 & Lh2 & Li2 & Ls2).
  rewrite !timestamp_at_fields in E.
  apply split_at_length in E as [Ey E]; [|congruence].
  apply String.app_inj in E.
  apply split_at_length in E as [Em E]; [|congruence].
  apply String.app_inj in E.
  apply split_at_length in E as [Ed E]; [|congruence].
  apply String.app_inj in E.
  apply split_at_length in E as [Eh E]; [|congruence].
  apply String.app_inj in E.
  apply split_at_length in E as [Ei E]; [|congruence].
  apply String.app_inj in E.
  apply split_at_length in E as [Es E]; [|congruence].
  apply string_app_inv_tail in E.
  apply pad0_inj in Ey, Em, Ed, Eh, Ei, Es.
  assert (microsecond d1 = microsecond d2) as Eu.
  { destruct (decide (microsecond d1 = 0%N)) as [Z1|N1],
      (decide (microsecond d2 = 0%N)) as [Z2|N2];
      try congruence.
    - apply (f_equal String.length) in E. discriminate E.
    - apply (f_equal String.length) in E.
      rewrite string_app_length in E. discriminate E.
    - apply String.app_inj in E. by apply pad0_inj in E. }
  destruct d1, d2. cbn in *. congruence.
Qed.

Lemma X6_timestamp_determines_clock_witness :
  Datetime.valid Sample.afternoon
  ∧ timestamp_at Sample.afternoon = timestamp_at Sample.afternoon
  ∧ Sample.afternoon = Sample.afternoon.
Proof.
  assert (Datetime.valid Sample.afternoon) as Hv
    by (vm_compute; repeat split; easy).
  split; [exact Hv|]. split; [reflexivity|].
  exact (X6_timestamp_determines_clock Sample.afternoon Sample.afternoon
           Hv Hv eq_refl).
Defined.

Lemma segment_insert_unlisted (self : HMACAuth.t) (d : CaseInsensitiveDict)
    (h v : string) :
  Py.lower h ∉ Py.lower <$> listed self →
  segment self (<[h := v]> d) = segment self d.
Proof.
  intros Hh. apply segment_agree. intros n Hn.
  apply dict_lookup_insert_ne. intros E. apply Hh. rewrite E.
  by apply list_elem_of_fmap_2.
Qed.

(** Signing the request that carries the value [v] from an earlier call,
    in the world that call left. *)
Lemma signed_world_again (self : HMACAuth.t) (r : ref) (q : Request)
    (p : ParseResult) (σ : World) (v : string) :
  "authorization" ∉ Py.lower <$> listed self →
  signed_world self r
    (Requests.with_headers q (<["Authorization" := v]> (Requests.headers q)))
    p {| clock := clock (elapse σ);
         future := future (elapse σ);
         heap :=
           <[r := Requests.with_headers q
                    (<["Authorization" := v]> (Requests.headers q))]>
             (heap σ) |}
  = signed_world self r q p (elapse σ).
Proof.
  intros Hl. unfold signed_world, signed_string.
  cbn [clock future heap Requests.headers Requests.method Requests.path_url
       Requests.with_headers].
  rewrite (segment_insert_unlisted self _ "Authorization") by exact Hl.
  unfold Requests.with_headers.
  cbn [Requests.headers Requests.method Requests.path_url Requests.url
       Requests.body].
  rewrite insert_insert_eq, dict_insert_insert by done. reflexivity.
Qed.

(** X8. When Authorization is, in no case of its letters, among the listed
    names, signing a request that this signer has signed before is signing
    it afresh at the next reading of the clock: the old Authorization value
    is replaced and is not part of what is signed.  When the clock reads
    the same again, the second call leaves the request as it was. *)
Theorem X8_signing_again_replaces (urlparse : string → result ParseResult)
    (self : HMACAuth.t) (r : ref) (σ σ1 : World) (q : Request)
    (p : ParseResult) :
  heap σ !! r = Some q →
  urlparse (Requests.url q) = Ok p →
  "authorization" ∉ Py.lower <$> listed self →
  __call__ urlparse self r σ = Ok (r, σ1) →
  __call__ urlparse self r σ1 = __call__ urlparse self r (elapse σ)
  ∧ ∃ σ2 : World,
      __call__ urlparse self r σ1 = Ok (r, σ2)
      ∧ header_of σ2 r "Authorization"
        = Some (auth_value self (signed_string self q p (clock σ1))
                  (timestamp_at (clock σ1)))
      ∧ (clock σ1 = clock σ → heap σ2 = heap σ1).
Proof.
  intros Hq Hp Hl Hcall.
  rewrite (call_eq urlparse self r σ q p Hq Hp) in Hcall.
  injection Hcall as <-.
  set (v := auth_value self (signed_string self q p (clock σ))
              (timestamp_at (clock σ))).
  set (q1 := Requests.with_headers q
               (<["Authorization" := v]> (Requests.headers q))).
  assert (__call__ urlparse self r (signed_world self r q p σ)
          = Ok (r, signed_world self r q p (elapse σ))) as Hagain.
  { rewrite (call_eq urlparse self r _ q1 p);
      [|apply lookup_insert_eq | exact Hp].
    f_equal. f_equal. by apply signed_world_again. }
  split.
  - rewrite Hagain. symmetry. by apply call_eq.
  - exists (signed_world self r q p (elapse σ)).
    change (clock (signed_world self r q p σ)) with (clock (elapse σ)).
    split; [exact Hagain|]. split; [apply signed_world_header|].
    intros Hc.
    unfold signed_world. cbn [heap]. by rewrite Hc.
Qed.

Lemma X8_signing_again_replaces_witness :
  let self := __init__ "k1" "s3cr3t" (Some ["X-Foo"]) in
  let σ := Sample.world in
  let σ1 := signed_world self 1%positive Sample.things Sample.parsed σ in
  heap σ !! 1%positive = Some Sample.things
  ∧ Sample.urlparse (Requests.url Sample.things) = Ok Sample.parsed
  ∧ ("authorization" ∉ Py.lower <$> listed self)
  ∧ __call__ Sample.urlparse self 1%positive σ = Ok (1%positive, σ1)
  ∧ header_of σ1 1%positive "Authorization"
    = Some ("APIKey=k1,"
            +:+ "Signature=kat6FFwWLmT8v6aEohOui6j3tW8NScv/wYTojaT5p+k=,"
            +:+ "Timestamp=2024-01-01T13:05:59.001234-00:00")
  ∧ __call__ Sample.urlparse self 1%positive σ1
    = __call__ Sample.urlparse self 1%positive (elapse σ)
  ∧ ∃ σ2 : World,
      __call__ Sample.urlparse self 1%positive σ1 = Ok (1%positive, σ2)
      ∧ header_of σ2 1%positive "Authorization"
        = Some ("APIKey=k1,"
                +:+ "Signature=59upnFtWQJ0r5rI3PY3BAIixjgYXLFHxzZJN80E0AaM=,"
                +:+ "Timestamp=2024-01-01T13:06:00.002468-00:00").
Proof.
  intros self σ σ1.
  assert (Sample.urlparse (Requests.url Sample.things) = Ok Sample.parsed)
    as Hp by (vm_compute; reflexivity).
  assert ("authorization" ∉ Py.lower <$> listed self) as Hl.
  { intros H%list_elem_of_singleton. discriminate H. }
  assert (__call__ Sample.urlparse self 1%positive σ = Ok (1%positive, σ1))
    as Hcall by (by apply call_eq).
  split; [reflexivity|]. split; [exact Hp|]. split; [exact Hl|].
  split; [exact Hcall|]. split; [vm_compute; reflexivity|].
  destruct (X8_signing_again_replaces Sample.urlparse self 1%positive σ σ1
              Sample.things Sample.parsed eq_refl Hp Hl Hcall)
    as (Hsame & σ2 & Hc2 & Hh2 & _).
  split; [exact Hsame|]. exists σ2. split; [exact Hc2|].
  rewrite Hh2. vm_compute. reflexivity.
Defined.

(** X9. Calls on two different requests do not disturb each other: after
    both, in either order, each request carries the Authorization value
    that a call on it alone produces at the clock reading its call saw (the
    first call the present reading, the second the next one), and every
    other object is as before; when the clock reads the same twice, the
    two orders end in the same world. *)
Theorem X9_calls_on_distinct_requests_independent
    (urlparse : string → result ParseResult) (self1 self2 : HMACAuth.t)
    (r1 r2 : ref) (σ : World) (q1 q2 : Request) (p1 p2 : ParseResult) :
  r1 ≠ r2 →
  heap σ !! r1 = Some q1 →
  heap σ !! r2 = Some q2 →
  urlparse (Requests.url q1) = Ok p1 →
  urlparse (Requests.url q2) = Ok p2 →
  ∃ (σ12 σ21 σ1 σ2 σ1' σ2' : World),
    and_then (__call__ urlparse self1 r1) (__call__ urlparse self2 r2) σ
    = Ok (r2, σ12)
    ∧ and_then (__call__ urlparse self2 r2) (__call__ urlparse self1 r1) σ
      = Ok (r1, σ21)
    ∧ __call__ urlparse self1 r1 σ = Ok (r1, σ1)
    ∧ __call__ urlparse self2 r2 σ = Ok (r2, σ2)
    ∧ __call__ urlparse self1 r1 (elapse σ) = Ok (r1, σ1')
    ∧ __call__ urlparse self2 r2 (elapse σ) = Ok (r2, σ2')
    ∧ heap σ12 !! r1 = heap σ1 !! r1
    ∧ heap σ12 !! r2 = heap σ2' !! r2
    ∧ heap σ21 !! r2 = heap σ2 !! r2
    ∧ heap σ21 !! r1 = heap σ1' !! r1
    ∧ (∀ r', r' ≠ r1 → r' ≠ r2 →
         heap σ12 !! r' = heap σ !! r' ∧ heap σ21 !! r' = heap σ !! r')
    ∧ clock σ12 = clock σ21
    ∧ future σ12 = future σ21
    ∧ (clock (elapse σ) = clock σ → σ12 = σ21).
Proof.
  intros Hne Hq1 Hq2 Hp1 Hp2.
  exists (signed_world self2 r2 q2 p2 (signed_world self1 r1 q1 p1 σ)),
    (signed_world self1 r1 q1 p1 (signed_world self2 r2 q2 p2 σ)),
    (signed_world self1 r1 q1 p1 σ), (signed_world self2 r2 q2 p2 σ),
    (signed_world self1 r1 q1 p1 (elapse σ)),
    (signed_world self2 r2 q2 p2 (elapse σ)).
  assert (heap (signed_world self1 r1 q1 p1 σ) !! r2 = Some q2) as Hq2'.
  { unfold signed_world. cbn [heap]. by rewrite lookup_insert_ne. }
  assert (heap (signed_world self2 r2 q2 p2 σ) !! r1 = Some q1) as Hq1'.
  { unfold signed_world. cbn [heap]. by rewrite lookup_insert_ne. }
  split.
  { unfold and_then, mbind, M_bind.
    rewrite (call_eq urlparse self1 r1 σ q1 p1 Hq1 Hp1).
    by apply call_eq. }
  split.
  { unfold and_then, mbind, M_bind.
    rewrite (call_eq urlparse self2 r2 σ q2 p2 Hq2 Hp2).
    by apply call_eq. }
  split; [by apply call_eq|]. split; [by apply call_eq|].
  split; [by apply call_eq|]. split; [by apply call_eq|].
  unfold signed_world. cbn [clock future heap].
  split; [rewrite lookup_insert_ne by done; by rewrite !lookup_insert_eq|].
  split; [by rewrite !lookup_insert_eq|].
  split; [rewrite lookup_insert_ne by done; by rewrite !lookup_insert_eq|].
  split; [by rewrite !lookup_insert_eq|].
  split; [intros r' H1 H2; by rewrite !lookup_insert_ne|].
  split; [reflexivity|]. split; [reflexivity|].
  intros Hc. f_equal. rewrite insert_insert_ne by done.
  unfold signed_string. by rewrite !Hc.
Qed.

Lemma X9_calls_on_distinct_requests_independent_witness :
  let self1 := __init__ "k1" "s3cr3t" (Some ["X-Foo"]) in
  let self2 := __init__ "k2" "0ther" None in
  let σ := Sample2.two_requests in
  let τ := Sample2.two_headers in
  let value1 sig t :=
    Some ("APIKey=k1,Signature=" +:+ sig +:+ ",Timestamp=2024-01-01T" +:+ t
          +:+ "-00:00") in
  let value2 sig t :=
    Some ("APIKey=k2,Signature=" +:+ sig +:+ ",Timestamp=2024-01-01T" +:+ t
          +:+ "-00:00") in
  1%positive ≠ 2%positive
  ∧ heap σ !! 1%positive = Some Sample.things
  ∧ heap σ !! 2%positive = Some Sample2.upload
  ∧ clock (elapse σ) ≠ clock σ
  ∧ clock (elapse τ) = clock τ
  ∧ (∃ (σ12 σ21 : World),
       and_then (__call__ Sample.urlparse self1 1%positive)
         (__call__ Sample.urlparse self2 2%positive) σ = Ok (2%positive, σ12)
       ∧ and_then (__call__ Sample.urlparse self2 2%positive)
           (__call__ Sample.urlparse self1 1%positive) σ
         = Ok (1%positive, σ21)
       ∧ header_of σ12 1%positive "Authorization"
         = value1 "kat6FFwWLmT8v6aEohOui6j3tW8NScv/wYTojaT5p+k="
             "13:05:59.001234"
       ∧ header_of σ12 2%positive "Authorization"
         = value2 "8JhFpMyfb8Hmo1P6+fqngYQ23NLWR0394YmoAvC7dGY="
             "13:06:00.002468"
       ∧ header_of σ21 2%positive "Authorization"
         = value2 "g5a0iJ4GypfwSbUIxBl835ZmZKdYUygfi11aGAqWlfc="
             "13:05:59.001234"
       ∧ header_of σ21 1%positive "Authorization"
         = value1 "59upnFtWQJ0r5rI3PY3BAIixjgYXLFHxzZJN80E0AaM="
             "13:06:00.002468")
  ∧ (∃ τ' : World,
       and_then (__call__ Sample.urlparse self1 1%positive)
         (__call__ Sample.urlparse self2 2%positive) τ = Ok (2%positive, τ')
       ∧ and_then (__call__ Sample.urlparse self2 2%positive)
           (__call__ Sample.urlparse self1 1%positive) τ
         = Ok (1%positive, τ')).
Proof.
  intros self1 self2 σ τ value1 value2.
  split; [discriminate|]. split; [reflexivity|]. split; [reflexivity|].
  split; [vm_compute; discriminate|]. split; [reflexivity|].
  split.
  - destruct (X9_calls_on_distinct_requests_independent Sample.urlparse
                self1 self2 1%positive 2%positive σ Sample.things
                Sample2.upload Sample.parsed Sample2.upload_parsed)
      as (σ12 & σ21 & σ1 & σ2 & σ1' & σ2' & H12 & H21 & H1 & H2 & H1' & H2'
          & E1 & E2 & E3 & E4 & _);
      [discriminate | reflexivity | reflexivity | vm_compute; reflexivity
      | vm_compute; reflexivity |].
    exists σ12, σ21. split; [exact H12|]. split; [exact H21|].
    unfold header_of. rewrite E1, E2, E3, E4. clear - H1 H2 H1' H2'.
    vm_compute in H1. injection H1 as <-.
    vm_compute in H2. injection H2 as <-.
    vm_compute in H1'. injection H1' as <-.
    vm_compute in H2'. injection H2' as <-.
    repeat split; vm_compute; reflexivity.
  - destruct (X9_calls_on_distinct_requests_independent Sample.urlparse
                self1 self2 1%positive 2%positive τ Sample.things
                Sample2.things_other_bar Sample.parsed Sample.parsed)
      as (τ12 & τ21 & _ & _ & _ & _ & H12 & H21 & _ & _ & _ & _ & _ & _ & _
          & _ & _ & _ & _ & Hsame);
      [discriminate | reflexivity | reflexivity | vm_compute; reflexivity
      | vm_compute; reflexivity |].
    exists τ12. split; [exact H12|]. rewrite (Hsame eq_refl). exact H21.
Defined.

Lemma char_of_in (i : Z) :
  Base64.char_of i ∈ Base64.pad_char :: Base64.alphabet.
Proof.
  unfold Base64.char_of.
  destruct (nth_in_or_default (Z.to_nat i) Base64.alphabet Base64.pad_char)
    as [Hin | ->]; [|left].
  right. by apply list_elem_of_In.
Qed.

Lemma b64encode_chars (l : list Z) :
  all_chars (λ c, c ∈ Base64.pad_char :: Base64.alphabet)
    (Base64.b64encode l).
Proof.
  induction l as [|a|a b|a b c l IH] using list_ind3;
    cbn [Base64.b64encode]; rewrite ?all_chars_cons;
    repeat split; try apply char_of_in; try done; try left.
  all: constructor.
Qed.

Lemma b64encode_lacks (c : ascii) (l : list Z) :
  c ∉ Base64.pad_char :: Base64.alphabet → lacks c (Base64.b64encode l).
Proof.
  intros Hc.
  apply (all_chars_impl (λ x, x ∈ Base64.pad_char :: Base64.alphabet)).
  - intros x Hx ->. by apply Hc.
  - apply b64encode_chars.
Qed.

(** X10. The Authorization value is read back in one way only: two values
    that are equal, made from API keys without a comma, have the same API
    key, the same signature text and the same timestamp. *)
Theorem X10_authorization_value_decodes (self1 self2 : HMACAuth.t)
    (s1 s2 ts1 ts2 value : string) :
  lacks ","%char (api_key self1) →
  lacks ","%char (api_key self2) →
  auth_header self1 s1 ts1 = Ok value →
  auth_header self2 s2 ts2 = Ok value →
  api_key self1 = api_key self2
  ∧ encoded_sig self1 s1 = encoded_sig self2 s2
  ∧ ts1 = ts2.
Proof.
  intros Hk1 Hk2 E1 E2. unfold auth_header in *.
  rewrite format_auth_header in E1, E2. rewrite <- E2 in E1.
  injection E1 as E. apply String.app_inj in E.
  apply (split_at_first ","%char) in E as [Ek E]; [|done..].
  apply (String.app_inj "Signature=") in E.
  assert (∀ self s, lacks ","%char (encoded_sig self s)) as Hsig.
  { intros self s. apply b64encode_lacks. vm_compute.
    intros H%list_elem_of_In. cbn in H. intuition discriminate. }
  apply (split_at_first ","%char) in E as [Es E]; [|apply Hsig..].
  apply (String.app_inj "Timestamp=") in E. done.
Qed.

Lemma X10_authorization_value_decodes_witness :
  let self := __init__ "k1" "s3cr3t" None in
  let value := auth_value self "signed" "2024-01-01T00:00:00-00:00" in
  lacks ","%char (api_key self)
  ∧ auth_header self "signed" "2024-01-01T00:00:00-00:00" = Ok value
  ∧ (api_key self = api_key self
     ∧ encoded_sig self "signed" = encoded_sig self "signed"
     ∧ "2024-01-01T00:00:00-00:00" = "2024-01-01T00:00:00-00:00").
Proof.
  intros self value.
  assert (lacks ","%char (api_key self)) as Hk
    by (apply lacks_literal; reflexivity).
  assert (auth_header self "signed" "2024-01-01T00:00:00-00:00" = Ok value)
    as Hv by apply format_auth_header.
  split; [exact Hk|]. split; [exact Hv|].
  exact (X10_authorization_value_decodes self self "signed" "signed"
           "2024-01-01T00:00:00-00:00" "2024-01-01T00:00:00-00:00" value
           Hk Hk Hv Hv).
Defined.

Lemma of_string_app (a b : string) :
  Bytes.of_string (a +:+ b) = Bytes.of_string a ++ Bytes.of_string b.
Proof. unfold Bytes.of_string. by rewrite chars_app, fmap_app. Qed.

Lemma of_string_length (s : string) :
  length (Bytes.of_string s) = String.length s.
Proof. unfold Bytes.of_string. by rewrite length_fmap, chars_length. Qed.

Lemma hmac_key_trailing_zero (key msg : list Z) :
  (length key < 64)%nat →
  HMAC.sha256_digest (key ++ [0]) msg = HMAC.sha256_digest key msg.
Proof.
  intros Hlen. unfold HMAC.sha256_digest, HMAC.block_size.
  rewrite !decide_False by (rewrite ?length_app; simpl; lia).
  replace ((key ++ [0]) ++ replicate (64 - length (key ++ [0])) 0)
    with (key ++ replicate (64 - length key) 0); [done|].
  rewrite length_app. cbn [length].
  replace (64 - length key)%nat with (S (64 - (length key + 1)))%nat by lia.
  cbn [replicate]. by rewrite <- app_assoc.
Qed.

Lemma call_same_signature (urlparse : string → result ParseResult)
    (self1 self2 : HMACAuth.t) (r : ref) (σ : World) :
  api_key self1 = api_key self2 →
  required_headers self1 = required_headers self2 →
  (∀ s, raw_sig self1 s = raw_sig self2 s) →
  __call__ urlparse self1 r σ = __call__ urlparse self2 r σ.
Proof.
  intros Hk Hr Hs. rewrite !call_cases.
  destruct (heap σ !! r) as [q|]; [|done].
  destruct (urlparse (Requests.url q)) as [p|e]; [|done].
  do 2 f_equal. unfold signed_world, signed_string, auth_value, encoded_sig,
    segment. by rewrite Hk, Hr, Hs.
Qed.

(** X11. Secret keys shorter than 64 bytes that differ by one NUL byte at
    the end sign alike: the digest, and so every call, is the same for the
    key and for the key followed by a NUL byte. *)
Theorem X11_trailing_nul_key_signs_alike
    (urlparse : string → result ParseResult) (k sk : string)
    (names : option (list string)) (r : ref) (σ : World) :
  (String.length sk < 64)%nat →
  sk +:+ NUL ≠ sk
  ∧ (∀ s, raw_sig (__init__ k (sk +:+ NUL) names) s
          = raw_sig (__init__ k sk names) s)
  ∧ __call__ urlparse (__init__ k (sk +:+ NUL) names) r σ
    = __call__ urlparse (__init__ k sk names) r σ.
Proof.
  intros Hlen.
  assert (∀ s, raw_sig (__init__ k (sk +:+ NUL) names) s
               = raw_sig (__init__ k sk names) s) as Hsig.
  { intros s. unfold raw_sig. cbn [secret_key __init__].
    rewrite of_string_app. apply hmac_key_trailing_zero.
    by rewrite of_string_length. }
  split.
  { intros E. apply (f_equal String.length) in E.
    rewrite string_app_length in E. cbn in E. lia. }
  split; [exact Hsig|]. by apply call_same_signature.
Qed.

Lemma X11_trailing_nul_key_signs_alike_witness :
  (String.length "s3cr3t" < 64)%nat
  ∧ "s3cr3t" +:+ NUL ≠ "s3cr3t"
  ∧ (∀ s, raw_sig (__init__ "k1" ("s3cr3t" +:+ NUL) None) s
          = raw_sig (__init__ "k1" "s3cr3t" None) s)
  ∧ __call__ Sample.urlparse (__init__ "k1" ("s3cr3t" +:+ NUL) None)
      1%positive Sample.world
    = __call__ Sample.urlparse (__init__ "k1" "s3cr3t" None) 1%positive
        Sample.world.
Proof.
  assert (String.length "s3cr3t" < 64)%nat as Hlen by (cbn; lia).
  split; [exact Hlen|].
  exact (X11_trailing_nul_key_signs_alike Sample.urlparse "k1" "s3cr3t" None
           1%positive Sample.world Hlen).
Defined.

(** Base64 text determines the bytes. *)

Lemma forallb2_spec (l1 l2 : list Z) (f : Z → Z → bool) :
  forallb (λ a, forallb (f a) l2) l1 = true →
  ∀ a b, a ∈ l1 → b ∈ l2 → f a b = true.
Proof.
  rewrite forallb_forall. intros H a b Ha Hb.
  apply list_elem_of_In, H in Ha. rewrite forallb_forall in Ha.
  by apply Ha, list_elem_of_In.
Qed.

Lemma is_byte_octet (b : Z) : is_byte b → b ∈ seqZ 0 256.
Proof. intros Hb. apply elem_of_seqZ. unfold is_byte in Hb. lia. Qed.

Lemma sextet_land (x : Z) : Z.land x 63 ∈ seqZ 0 64.
Proof.
  apply elem_of_seqZ. change 63 with (Z.ones 6).
  rewrite Z.land_ones by lia. pose proof (Z.mod_pos_bound x (2 ^ 6)). lia.
Qed.

Lemma sextet_shiftr (a : Z) : is_byte a → Z.shiftr a 2 ∈ seqZ 0 64.
Proof.
  intros Ha. apply elem_of_seqZ. unfold is_byte in Ha.
  rewrite Z.shiftr_div_pow2 by lia. change (2 ^ 2) with 4.
  split; [apply Z.div_pos; lia|].
  apply Z.div_lt_upper_bound; lia.
Qed.

Lemma char_of_inj (i j : Z) :
  i ∈ seqZ 0 64 → j ∈ seqZ 0 64 →
  Base64.char_of i = Base64.char_of j → i = j.
Proof.
  intros Hi Hj E.
  assert (forallb (λ a, forallb (λ b,
            implb (Ascii.eqb (Base64.char_of a) (Base64.char_of b)) (a =? b))
            (seqZ 0 64)) (seqZ 0 64) = true) as H by (vm_compute; reflexivity).
  pose proof (forallb2_spec _ _ _ H i j Hi Hj) as Hij. cbv beta in Hij.
  rewrite E, Ascii.eqb_refl in Hij. by apply Z.eqb_eq.
Qed.

Lemma char_of_not_pad (i : Z) :
  i ∈ seqZ 0 64 → Base64.char_of i ≠ Base64.pad_char.
Proof.
  intros Hi E.
  assert (forallb (λ a, negb (Ascii.eqb (Base64.char_of a) Base64.pad_char))
            (seqZ 0 64) = true) as H by (vm_compute; reflexivity).
  rewrite forallb_forall in H. apply list_elem_of_In, H in Hi.
  by rewrite E, Ascii.eqb_refl in Hi.
Qed.

Lemma first_byte_ok (a b : Z) :
  is_byte a → is_byte b →
  first_byte (Z.shiftr a 2) (Z.land (Z.lor (Z.shiftl a 4) (Z.shiftr b 4)) 63)
  = a.
Proof.
  intros Ha Hb.
  assert (forallb (λ a, forallb (λ b,
            first_byte (Z.shiftr a 2)
              (Z.land (Z.lor (Z.shiftl a 4) (Z.shiftr b 4)) 63) =? a)
            (seqZ 0 256)) (seqZ 0 256) = true) as H
    by (vm_compute; reflexivity).
  apply Z.eqb_eq.
  exact (forallb2_spec _ _ _ H a b (is_byte_octet a Ha) (is_byte_octet b Hb)).
Qed.

Lemma first_byte_alone (a : Z) :
  is_byte a →
  first_byte (Z.shiftr a 2) (Z.land (Z.shiftl a 4) 63) = a.
Proof.
  intros Ha. rewrite <- (first_byte_ok a 0) at 3; [|done|by unfold is_byte].
  change (Z.shiftr 0 4) with 0. by rewrite Z.lor_0_r.
Qed.

Lemma second_byte_ok (a b c : Z) :
  is_byte a → is_byte b → is_byte c →
  second_byte (Z.land (Z.lor (Z.shiftl a 4) (Z.shiftr b 4)) 63)
    (Z.land (Z.lor (Z.shiftl b 2) (Z.shiftr c 6)) 63)
  = b.
Proof.
  intros Ha Hb Hc. unfold second_byte.
  assert (forallb (λ a, forallb (λ b,
            Z.land (Z.land (Z.lor (Z.shiftl a 4) (Z.shiftr b 4)) 63) 15
            =? Z.shiftr b 4) (seqZ 0 256)) (seqZ 0 256) = true) as H1
    by (vm_compute; reflexivity).
  assert (forallb (λ b, forallb (λ c,
            Z.lor (Z.shiftl (Z.shiftr b 4) 4)
              (Z.shiftr (Z.land (Z.lor (Z.shiftl b 2) (Z.shiftr c 6)) 63) 2)
            =? b) (seqZ 0 256)) (seqZ 0 256) = true) as H2
    by (vm_compute; reflexivity).
  pose proof (forallb2_spec _ _ _ H1 a b (is_byte_octet a Ha)
                (is_byte_octet b Hb)) as E1.
  pose proof (forallb2_spec _ _ _ H2 b c (is_byte_octet b Hb)
                (is_byte_octet c Hc)) as E2.
  cbv beta in E1, E2. apply Z.eqb_eq in E1, E2. by rewrite E1.
Qed.

Lemma second_byte_last (a b : Z) :
  is_byte a → is_byte b →
  second_byte (Z.land (Z.lor (Z.shiftl a 4) (Z.shiftr b 4)) 63)
    (Z.land (Z.shiftl b 2) 63)
  = b.
Proof.
  intros Ha Hb.
  rewrite <- (second_byte_ok a b 0) at 3; [|done|done|by unfold is_byte].
  change (Z.shiftr 0 6) with 0. by rewrite Z.lor_0_r.
Qed.

Lemma third_byte_ok (b c : Z) :
  is_byte b → is_byte c →
  third_byte (Z.land (Z.lor (Z.shiftl b 2) (Z.shiftr c 6)) 63) (Z.land c 63)
  = c.
Proof.
  intros Hb Hc.
  assert (forallb (λ b, forallb (λ c,
            third_byte (Z.land (Z.lor (Z.shiftl b 2) (Z.shiftr c 6)) 63)
              (Z.land c 63) =? c) (seqZ 0 256)) (seqZ 0 256) = true) as H
    by (vm_compute; reflexivity).
  apply Z.eqb_eq.
  exact (forallb2_spec _ _ _ H b c (is_byte_octet b Hb) (is_byte_octet c Hc)).
Qed.

Ltac sextet := first [apply sextet_land | by apply sextet_shiftr].

Ltac string_heads :=
  repeat match goal with
         | H : String _ _ = String _ _ |- _ => injection H as ? ?
         | H : Forall _ (_ :: _) |- _ => apply Forall_cons in H as [? H]
         end.

Ltac pad_is_no_digit :=
  match goal with
  | H : Base64.pad_char = Base64.char_of _ |- _ =>
      symmetry in H; apply char_of_not_pad in H; [done | sextet]
  | H : Base64.char_of _ = Base64.pad_char |- _ =>
      apply char_of_not_pad in H; [done | sextet]
  end.

Ltac same_digits :=
  repeat match goal with
         | H : Base64.char_of _ = Base64.char_of _ |- _ =>
             apply char_of_inj in H; [| sextet | sextet]
         end.

Lemma b64encode_inj (l1 l2 : list Z) :
  Forall is_byte l1 → Forall is_byte l2 →
  Base64.b64encode l1 = Base64.b64encode l2 → l1 = l2.
Proof.
  revert l2.
  induction l1 as [|a|a b|a b c l1 IH] using list_ind3;
    intros [|a' [|b' [|c' l2]]] H1 H2 E; cbn [Base64.b64encode] in E;
    try discriminate E; try done; string_heads; try pad_is_no_digit;
    same_digits.
  - f_equal. rewrite <- (first_byte_alone a), <- (first_byte_alone a') by done.
    congruence.
  - f_equal; [|f_equal].
    + rewrite <- (first_byte_ok a b), <- (first_byte_ok a' b') by done.
      congruence.
    + rewrite <- (second_byte_last a b), <- (second_byte_last a' b') by done.
      congruence.
  - f_equal; [|f_equal; [|f_equal]].
    + rewrite <- (first_byte_ok a b), <- (first_byte_ok a' b') by done.
      congruence.
    + rewrite <- (second_byte_ok a b c), <- (second_byte_ok a' b' c') by done.
      congruence.
    + rewrite <- (third_byte_ok b c), <- (third_byte_ok b' c') by done.
      congruence.
    + by apply IH.
Qed.

Lemma land_255_byte (y : Z) : is_byte (Z.land y 255).
Proof.
  unfold is_byte. change 255 with (Z.ones 8). rewrite Z.land_ones by lia.
  pose proof (Z.mod_pos_bound y (2 ^ 8)). lia.
Qed.

Lemma bytes_of_word_bytes (x : Z) : Forall is_byte (SHA256.bytes_of_word x).
Proof.
  unfold SHA256.bytes_of_word.
  repeat (apply Forall_cons; split; [apply land_255_byte|]).
  constructor.
Qed.

Lemma sha256_digest_bytes (msg : list Z) : Forall is_byte (SHA256.digest msg).
Proof.
  unfold SHA256.digest, SHA256.digest_of.
  repeat (apply Forall_app; split); apply bytes_of_word_bytes.
Qed.

Lemma raw_sig_bytes (self : HMACAuth.t) (s : string) :
  Forall is_byte (raw_sig self s).
Proof. unfold raw_sig, HMAC.sha256_digest. apply sha256_digest_bytes. Qed.

(** X12. The signature text stands for one digest only: two signatures
    have the same base64 text exactly when their 32-byte digests are
    equal, and the text uses only the 64 digits of the alphabet and the
    equals sign. *)
Theorem X12_signature_text_determines_digest (self1 self2 : HMACAuth.t)
    (s1 s2 : string) :
  (encoded_sig self1 s1 = encoded_sig self2 s2
   ↔ raw_sig self1 s1 = raw_sig self2 s2)
  ∧ all_chars (λ c, c ∈ Base64.pad_char :: Base64.alphabet)
      (encoded_sig self1 s1)
  ∧ Forall is_byte (raw_sig self1 s1).
Proof.
  split; [|split; [apply b64encode_chars | apply raw_sig_bytes]].
  unfold encoded_sig. split; [|by intros ->].
  apply b64encode_inj; apply raw_sig_bytes.
Qed.

Lemma selected_Permutation (d : CaseInsensitiveDict) (l1 l2 : list string) :
  l1 ≡ₚ l2 → selected d l1 ≡ₚ selected d l2.
Proof. unfold selected. apply omap_Permutation. Qed.

(** X13. Names are not de-duplicated: listing once more a name whose
    header the request has adds its value once more to the signed values;
    a name listed twice has its value signed on two lines. *)
Theorem X13_repeated_name_signed_again (k sk n v m h u ts : string)
    (names : list string) (d : CaseInsensitiveDict) :
  d !! n = Some v →
  selected d (Py.sorted (n :: names)) ≡ₚ v :: selected d (Py.sorted names)
  ∧ str_to_sign (__init__ k sk (Some [n; n])) m h u ts d
    = Ok (base_string m h u ts +:+ v +:+ Py.LF +:+ v).
Proof.
  intros Hn. split.
  - trans (selected d (n :: Py.sorted names)).
    + apply selected_Permutation. by rewrite !sorted_Permutation.
    + unfold selected. cbn [omap list_omap]. by rewrite Hn.
  - rewrite str_to_sign_eq. do 2 f_equal.
    assert (Py.sorted [n; n] = [n; n]) as Hs.
    { apply sorted_unique; [apply sorted_Sorted| |apply sorted_Permutation].
      apply SSorted_cons; [apply SSorted_cons; constructor|].
      apply Forall_cons. split; [reflexivity | constructor]. }
    unfold segment. cbn [required_headers __init__]. rewrite Hs.
    unfold selected. cbn [omap list_omap]. by rewrite Hn.
Qed.

Lemma X13_repeated_name_signed_again_witness :
  let d := Requests.headers Sample.things in
  d !! "X-Foo" = Some "v1"
  ∧ selected d (Py.sorted ["X-Foo"; "X-Bar"; "X-Foo"])
    ≡ₚ "v1" :: selected d (Py.sorted ["X-Bar"; "X-Foo"])
  ∧ str_to_sign (__init__ "k1" "s3cr3t" (Some ["X-Foo"; "X-Foo"])) "GET"
      "example.com" "/" "t" d
    = Ok (base_string "GET" "example.com" "/" "t" +:+ "v1" +:+ Py.LF +:+ "v1").
Proof.
  intros d. split; [reflexivity|].
  exact (X13_repeated_name_signed_again "k1" "s3cr3t" "X-Foo" "v1" "GET"
           "example.com" "/" "t" ["X-Bar"; "X-Foo"] d eq_refl).
Defined.
